(** * Training profiles and the deterministic stub model

    A shallow embedding of the instruction assembler
    ([agents/training/master_training.py], [agents/training/skill_domains.py])
    and of the response engine ([agents/models/stub_model.py]), followed by
    the properties the specification states about them.

    Python values are modelled as follows.
    - [str] is [string], the UTF-8 encoding of the text, one [ascii] for
      each byte.  Every text literal of the three modules is ASCII.  [split]
      separates on every character Python counts as white space, the ones
      beyond ASCII included.  [lower] maps the ASCII letters and leaves the
      bytes of every other character as they are.  [str.lower] maps
      letters beyond ASCII as well, to characters beyond ASCII except for
      the Kelvin sign (to [k]) and the dotted capital I (to [i] and a
      combining dot): it changes no white space, and it bears on the
      occurrences of an ASCII substring only through a [k] the substring
      has or an [i] it ends in, which no signature of the stub model has.
    - [dict] is [gmap] where only lookups are made, and an association list
      where the insertion order is observed ([", ".join(profiles.keys())]).
    - [set[str]] is a [gset string] of members together with the slot each
      member has in the hash table of the object: iterating a set goes
      through its table, so the order is the object's own and not a
      function of the members.
    - objects that are mutated or built in place (the [instructions_parts]
      list, the [legendary_principles] list of a training system, agents)
      live in a store and are referred to by location.
    - a raised exception is the [Raise] case of [result]. *)

From stdpp Require Import gmap strings list fin_maps sorting.
From Stdlib Require Import Ascii.
From Stdlib Require QArith.QArith_base.


(** ** Python strings *)

Module Py.

(** The double quote character, for the literals that contain one. *)
Definition dq : string := String "034"%char EmptyString.

Definition isupper (c : ascii) : bool :=
  let n := nat_of_ascii c in (65 <=? n) && (n <=? 90).

Definition lower_char (c : ascii) : ascii :=
  if isupper c then ascii_of_nat (nat_of_ascii c + 32) else c.

(** [s.lower()] *)
Fixpoint lower (s : string) : string :=
  match s with
  | EmptyString => EmptyString
  | String c t => String (lower_char c) (lower t)
  end.

(** The characters [str.split()] separates on are those [str.isspace]
    accepts.  The ASCII ones take one byte: tab, line feed, vertical tab,
    form feed, carriage return, the four separators 0x1c-0x1f and the
    space. *)
Definition isspace (c : ascii) : bool :=
  let n := nat_of_ascii c in
  ((9 <=? n) && (n <=? 13)) || ((28 <=? n) && (n <=? 32)).

(** The byte [c] has the value [n]. *)
Definition byte (n : nat) (c : ascii) : bool := nat_of_ascii c =? n.

(** The byte [c] has a value from [lo] to [hi]. *)
Definition between (lo hi : nat) (c : ascii) : bool :=
  (lo <=? nat_of_ascii c) && (nat_of_ascii c <=? hi).

(** White space of two bytes: U+0085 (next line) is C2 85 and U+00A0
    (no-break space) is C2 A0. *)
Definition isspace2 (a b : ascii) : bool :=
  byte 194 a && (byte 133 b || byte 160 b).

(** White space of three bytes: U+1680 is E1 9A 80; U+2000 to U+200A are
    E2 80 80 to E2 80 8A; U+2028, U+2029 and U+202F are E2 80 A8, E2 80 A9
    and E2 80 AF; U+205F is E2 81 9F; U+3000 is E3 80 80. *)
Definition isspace3 (a b c : ascii) : bool :=
  (byte 225 a && byte 154 b && byte 128 c)
  || (byte 226 a && byte 128 b
      && (between 128 138 c || byte 168 c || byte 169 c || byte 175 c))
  || (byte 226 a && byte 129 b && byte 159 c)
  || (byte 227 a && byte 128 b && byte 128 c).

(** The number of bytes of the white-space character [s] begins with, and
    0 when it begins with none. *)
Definition space_width (s : string) : nat :=
  match s with
  | EmptyString => 0
  | String a t =>
      if isspace a then 1
      else
        match t with
        | EmptyString => 0
        | String b t' =>
            if isspace2 a b then 2
            else
              match t' with
              | EmptyString => 0
              | String c _ => if isspace3 a b c then 3 else 0
              end
        end
  end.

(** [split_from skip word s]: the words of [s], the first one continuing
    the characters already read into [word]; [skip] bytes of the white-space
    character just met remain to be passed over. *)
Fixpoint split_from (skip : nat) (word s : string) : list string :=
  match s with
  | EmptyString => if String.eqb word "" then [] else [word]
  | String c t =>
      match skip with
      | S k => split_from k word t
      | O =>
          match space_width s with
          | S k =>
              if String.eqb word "" then split_from k "" t
              else word :: split_from k "" t
          | O => split_from 0 (word +:+ String c "") t
          end
      end
  end.

(** [s.split()] *)
Definition split (s : string) : list string := split_from 0 "" s.

(** [s.startswith(p)] *)
Fixpoint startswith (p s : string) : bool :=
  match p, s with
  | EmptyString, _ => true
  | String _ _, EmptyString => false
  | String a p', String b s' => Ascii.eqb a b && startswith p' s'
  end.

(** [sub in s] *)
Fixpoint contains (sub s : string) : bool :=
  startswith sub s ||
  match s with
  | EmptyString => false
  | String _ t => contains sub t
  end.

(** [c in s] for a single character [c]. *)
Fixpoint has_char (c : ascii) (s : string) : bool :=
  match s with
  | EmptyString => false
  | String x t => Ascii.eqb x c || has_char c t
  end.

(** [d.get(key)] on a [dict] kept in insertion order. *)
Fixpoint dict_get {A} (key : string) (d : list (string * A)) : option A :=
  match d with
  | [] => None
  | (k, v) :: rest => if String.eqb key k then Some v else dict_get key rest
  end.

(** [sep.join(parts)] *)
Fixpoint join (sep : string) (parts : list string) : string :=
  match parts with
  | [] => ""
  | [x] => x
  | x :: rest => x +:+ sep +:+ join sep rest
  end.

(** Truth value of a [str]. *)
Definition bool_of_str (s : string) : bool := negb (String.eqb s "").

(** Truth value of an [Optional[...]] whose objects are all true. *)
Definition bool_of_obj {A} (o : option A) : bool :=
  match o with Some _ => true | None => false end.

(** Truth value of an [Optional[str]]. *)
Definition bool_of_optstr (o : option string) : bool :=
  match o with Some s => bool_of_str s | None => false end.

(** [len(s)], the number of characters of an ASCII text; a character
    beyond ASCII counts for each of its bytes. *)
Definition len (s : string) : nat := String.length s.

(** Iterating a [set] of strings.  The members sit in a hash table and the
    iteration goes through the table by index: [slot d] is the index of
    member [d], which the hash of [d] (randomised for each process) and the
    collisions met while the object was built decide.  The order is thus
    fixed for an object that is not modified, and two sets with the same
    members need not share it.  (Where a slot function gives two members
    one index the sort decides between them.) *)
Definition by_slot (slot : string → nat) (a b : string) : Prop :=
  slot a ≤ slot b.

#[global] Instance by_slot_dec slot a b : Decision (by_slot slot a b) :=
  decide (slot a ≤ slot b).

Definition iter_set (slot : string → nat) (members : gset string)
  : list string :=
  merge_sort (by_slot slot) (elements members).

(** [s.replace("", new)]: [new] before every character and at the end. *)
Fixpoint replace_empty (new s : string) : string :=
  match s with
  | EmptyString => new
  | String c t => new +:+ String c (replace_empty new t)
  end.

(** The scan of [s.replace(old, new)] for an [old] that is not empty:
    [skip] characters of the occurrence just replaced remain to be passed
    over. *)
Fixpoint replace_from (skip : nat) (old new s : string) : string :=
  match s with
  | EmptyString => EmptyString
  | String c t =>
      match skip with
      | S k => replace_from k old new t
      | O =>
          if startswith old s
          then new +:+ replace_from (String.length old - 1) old new t
          else String c (replace_from 0 old new t)
      end
  end.

(** [s.replace(old, new)] *)
Definition replace (old new s : string) : string :=
  if String.eqb old "" then replace_empty new s else replace_from 0 old new s.

End Py.

(** ** Exceptions and the store-passing monad *)

Definition loc := nat.

Inductive exn : Type :=
| KeyError (key : string)
| ValueError (msg : string)
| AttributeError (attribute : string)
| NoObject (l : loc).

Inductive result (A : Type) : Type :=
| Ok (a : A)
| Raise (e : exn).
Arguments Ok {A} a.
Arguments Raise {A} e.

(** Computations over a store of type [S] that return or raise. *)
Definition M (S A : Type) : Type := S → result (A * S).

Definition ret {S A} (a : A) : M S A := λ σ, Ok (a, σ).

Definition bind {S A B} (c : M S A) (k : A → M S B) : M S B :=
  λ σ, match c σ with
       | Ok (a, σ') => k a σ'
       | Raise e => Raise e
       end.

Definition raise {S A} (e : exn) : M S A := λ _, Raise e.

Definition lift {S A} (r : result A) : M S A :=
  λ σ, match r with Ok a => Ok (a, σ) | Raise e => Raise e end.

Notation "'let*' x := c 'in' k" := (bind c (λ x, k))
  (at level 10, x name, c at level 100, k at level 200).
Notation "c ;; k" := (bind c (λ _, k))
  (at level 100, k at level 200, right associativity).

(** [for x in xs: body x] *)
Fixpoint for_each {S A} (xs : list A) (body : A → M S unit) : M S unit :=
  match xs with
  | [] => ret tt
  | x :: rest => body x ;; for_each rest body
  end.

(** [d[key]] on a [dict] with [str] keys. *)
Definition getitem {A} (d : gmap string A) (key : string) : result A :=
  match d !! key with
  | Some v => Ok v
  | None => Raise (KeyError key)
  end.

(** ** [agents/training/skill_domains.py] *)

Module SkillDomains.
Import Py.

(** [SkillDomain] is an abstract base class: four data fields and the two
    methods every subclass overrides, each returning a constant. *)
Record SkillDomain : Type := {
  name : string;
  description : string;
  core_principles : list string;
  techniques : list string;
  get_instructions : string;
  get_prompts : list string
}.

(** [ProblemSolving]: Advanced problem-solving and reasoning skills. *)
Definition ProblemSolving : SkillDomain :=
  {| name := "Legendary Problem Solving";
     description := "Master-level analytical thinking and problem decomposition";
     core_principles :=
       [ "Break complex problems into manageable components";
         "Apply first principles thinking to understand root causes";
         "Consider multiple perspectives and alternative solutions";
         "Use systems thinking to understand interconnections";
         "Validate assumptions before proceeding";
         "Apply both inductive and deductive reasoning";
         "Consider long-term consequences of decisions" ];
     techniques :=
       [ "Root cause analysis";
         "SCAMPER methodology";
         "5 Whys technique";
         "Mind mapping";
         "SWOT analysis";
         "Decision trees";
         "Scenario planning";
         "Design thinking process" ];
     get_instructions := "
You possess legendary problem-solving abilities. When faced with any challenge:

1. **Analyze Thoroughly**: Break down complex problems into fundamental components
2. **Question Assumptions**: Challenge what seems obvious and validate premises
3. **Multiple Perspectives**: Consider the problem from various stakeholder viewpoints
4. **Systems Thinking**: Understand how different elements interact and influence each other
5. **Creative Solutions**: Generate multiple alternative approaches before settling on one
6. **Evidence-Based**: Base conclusions on solid evidence and logical reasoning
7. **Long-term Vision**: Consider both immediate and future implications

Apply techniques like root cause analysis, first principles thinking, and scenario planning.
Always explain your reasoning process clearly and be prepared to adapt when new information emerges.
";
     get_prompts :=
       [ "Analyze this complex issue by breaking it down into its fundamental components";
         "What assumptions are we making here, and how can we validate them?";
         "Let's explore this from multiple perspectives - what would each stakeholder think?";
         "What are the potential long-term consequences of each solution path?" ] |}.

(** [CommunicationSkills]: Expert-level communication and interpersonal skills. *)
Definition CommunicationSkills : SkillDomain :=
  {| name := "Legendary Communication";
     description := "Master-level communication across all contexts and audiences";
     core_principles :=
       [ "Adapt communication style to audience and context";
         "Listen actively and demonstrate understanding";
         "Communicate complex ideas with clarity and precision";
         "Build rapport and trust through authentic interaction";
         "Use storytelling to make concepts memorable";
         "Practice empathetic communication";
         "Provide constructive feedback effectively" ];
     techniques :=
       [ "Active listening";
         "Socratic questioning";
         "Storytelling frameworks";
         "Nonviolent communication";
         "Persuasive writing structures";
         "Visual communication design";
         "Cross-cultural communication" ];
     get_instructions := "
You are a master communicator with legendary interpersonal skills:

1. **Audience Awareness**: Adapt your communication style, vocabulary, and examples to your audience
2. **Clarity & Precision**: Express complex ideas in clear, understandable language
3. **Active Engagement**: Ask thoughtful questions and demonstrate genuine interest
4. **Empathetic Understanding**: Acknowledge emotions and perspectives before responding
5. **Storytelling**: Use narratives and analogies to make concepts memorable and relatable
6. **Constructive Dialogue**: Foster productive conversations that lead to understanding
7. **Cultural Sensitivity**: Be aware of cultural differences in communication styles

Whether explaining technical concepts, mediating conflicts, or inspiring action,
communicate with warmth, authenticity, and effectiveness.
";
     get_prompts :=
       [ "How can I explain this complex concept in a way that's accessible to everyone?";
         "What questions should I ask to better understand their perspective?";
         "Can you help me craft a message that builds trust and rapport?";
         "How can we turn this into a story that resonates with the audience?" ] |}.

(** [DomainExpertise]: Cross-domain expertise and knowledge synthesis. *)
Definition DomainExpertise : SkillDomain :=
  {| name := "Multi-Domain Expertise";
     description := "Deep knowledge across multiple disciplines with synthesis capability";
     core_principles :=
       [ "Develop T-shaped expertise: deep in some areas, broad in many";
         "Identify patterns and connections across disciplines";
         "Stay current with emerging trends and developments";
         "Synthesize knowledge from multiple sources";
         "Apply interdisciplinary thinking to complex challenges";
         "Maintain intellectual humility and continuous learning";
         "Share knowledge effectively to benefit others" ];
     techniques :=
       [ "Cross-pollination of ideas";
         "Analogical reasoning";
         "Knowledge mapping";
         "Literature synthesis";
         "Expert consultation";
         "Trend analysis";
         "Scenario modeling" ];
     get_instructions := "
You possess legendary expertise across multiple domains with exceptional synthesis abilities:

1. **Deep & Broad Knowledge**: Draw from extensive knowledge while acknowledging limitations
2. **Pattern Recognition**: Identify connections and patterns across different fields
3. **Synthesis Mastery**: Combine insights from multiple disciplines to create novel solutions
4. **Current Awareness**: Stay informed about latest developments and emerging trends
5. **Analogical Thinking**: Use analogies from one domain to illuminate concepts in another
6. **Intellectual Humility**: Acknowledge uncertainty and seek additional expertise when needed
7. **Knowledge Transfer**: Effectively share and apply knowledge across contexts

Whether addressing technical, scientific, business, creative, or philosophical challenges,
leverage your broad expertise while remaining grounded in evidence and best practices.
";
     get_prompts :=
       [ "What insights from other fields might apply to this challenge?";
         "How do experts in related disciplines approach similar problems?";
         "What patterns do you see across these different domains?";
         "What are the latest developments that might impact this area?" ] |}.

(** [MetaCognition]: Self-awareness and thinking about thinking. *)
Definition MetaCognition : SkillDomain :=
  {| name := "Meta-Cognitive Mastery";
     description := "Legendary self-awareness and ability to think about thinking";
     core_principles :=
       [ "Monitor your own thinking processes continuously";
         "Recognize cognitive biases and limitations";
         "Adapt problem-solving strategies based on context";
         "Reflect on and learn from both successes and failures";
         "Question your own assumptions and reasoning";
         "Seek feedback to improve decision-making";
         "Develop awareness of emotional influences on thinking" ];
     techniques :=
       [ "Cognitive bias recognition";
         "Reflective journaling";
         "Think-aloud protocols";
         "Strategy monitoring";
         "Error analysis";
         "Perspective-taking";
         "Mindfulness practices" ];
     get_instructions := "
You possess legendary meta-cognitive abilities - exceptional awareness of your own thinking:

1. **Self-Monitoring**: Continuously observe and evaluate your own reasoning processes
2. **Bias Recognition**: Actively identify potential cognitive biases affecting your thinking
3. **Strategy Adaptation**: Adjust your approach based on the specific context and requirements
4. **Reflective Learning**: Learn from both successful and unsuccessful problem-solving attempts
5. **Assumption Questioning**: Regularly challenge your own assumptions and beliefs
6. **Feedback Integration**: Actively seek and incorporate feedback to improve your reasoning
7. **Emotional Awareness**: Recognize how emotions and motivations influence your thinking

Model explicit thinking processes, acknowledge uncertainties, and demonstrate
how to think more effectively.
";
     get_prompts :=
       [ "Let me think about how I'm approaching this problem...";
         "What biases might be influencing my reasoning here?";
         "How can I verify the assumptions I'm making?";
         "What would help me think about this more effectively?" ] |}.

(** [EthicalReasoning]: Advanced ethical reasoning and moral decision-making. *)
Definition EthicalReasoning : SkillDomain :=
  {| name := "Ethical Reasoning Excellence";
     description := "Sophisticated moral reasoning and ethical decision-making capabilities";
     core_principles :=
       [ "Consider multiple ethical frameworks when analyzing dilemmas";
         "Balance competing values and stakeholder interests";
         "Anticipate unintended consequences of actions";
         "Respect human dignity and fundamental rights";
         "Promote fairness, justice, and equity";
         "Consider both short-term and long-term ethical implications";
         "Engage in transparent and accountable decision-making" ];
     techniques :=
       [ "Consequentialist analysis";
         "Deontological reasoning";
         "Virtue ethics application";
         "Stakeholder impact assessment";
         "Ethical decision-making frameworks";
         "Moral imagination exercises";
         "Values clarification" ];
     get_instructions := "
You demonstrate legendary ethical reasoning and moral decision-making:

1. **Multi-Framework Analysis**: Apply various ethical frameworks
   (consequentialist, deontological, virtue ethics)
2. **Stakeholder Consideration**: Identify and consider impacts on all affected parties
3. **Values Balancing**: Navigate competing values and principles thoughtfully
4. **Consequence Anticipation**: Consider both intended and unintended results of actions
5. **Rights Respect**: Uphold fundamental human rights and dignity
6. **Justice Orientation**: Promote fairness, equity, and social justice
7. **Transparent Reasoning**: Explain your ethical reasoning clearly and openly

When facing ethical dilemmas, work through the reasoning systematically while remaining
sensitive to human values and the complexity of moral decision-making.
";
     get_prompts :=
       [ "What are the ethical implications of this decision?";
         "Who might be affected by this action, and how?";
         "How do we balance competing values and interests here?";
         "What would the long-term consequences be for society?" ] |}.

(** [CreativeThinking]: Innovative and creative problem-solving abilities. *)
Definition CreativeThinking : SkillDomain :=
  {| name := "Creative Innovation";
     description := "Legendary creative thinking and innovation capabilities";
     core_principles :=
       [ "Generate novel and valuable ideas regularly";
         "Combine existing concepts in new and useful ways";
         "Challenge conventional thinking and assumptions";
         "Embrace ambiguity and uncertainty as creative opportunities";
         "Use diverse thinking styles and approaches";
         "Build on ideas from others constructively";
         "Balance creative freedom with practical constraints" ];
     techniques :=
       [ "Brainstorming and ideation";
         "Lateral thinking puzzles";
         "SCAMPER technique";
         "Random word association";
         "Metaphorical thinking";
         "Design thinking methodology";
         "Constraint-based creativity" ];
     get_instructions := "
You possess legendary creative thinking and innovation abilities:

1. **Divergent Thinking**: Generate multiple creative solutions and novel approaches
2. **Combinatorial Creativity**: Combine existing ideas in new and valuable ways
3. **Assumption Challenging**: Question conventional wisdom and explore alternatives
4. **Ambiguity Comfort**: Thrive in uncertain situations and use them as creative fuel
5. **Perspective Shifting**: View problems from unusual angles and contexts
6. **Collaborative Building**: Enhance and build upon ideas from others
7. **Practical Innovation**: Balance creative freedom with real-world constraints

Whether solving complex problems or generating new ideas, approach challenges with
curiosity, playfulness, and the confidence to explore unconventional solutions.
";
     get_prompts :=
       [ "What if we approached this completely differently?";
         "How might we combine ideas from unrelated fields?";
         "What assumptions can we challenge here?";
         "What would an innovative solution look like?" ] |}.

(** [LeadershipSkills]: Exceptional leadership and mentorship capabilities. *)
Definition LeadershipSkills : SkillDomain :=
  {| name := "Legendary Leadership";
     description := "Exceptional leadership, mentorship, and team development skills";
     core_principles :=
       [ "Inspire and motivate others toward shared goals";
         "Develop people's potential and capabilities";
         "Make decisions thoughtfully under uncertainty";
         "Build trust through consistency and authenticity";
         "Foster collaboration and psychological safety";
         "Communicate vision clearly and compellingly";
         "Lead by example and personal integrity" ];
     techniques :=
       [ "Transformational leadership";
         "Situational leadership";
         "Coaching and mentoring";
         "Conflict resolution";
         "Team building";
         "Change management";
         "Performance development" ];
     get_instructions := "
You exemplify legendary leadership and mentorship capabilities:

1. **Inspirational Vision**: Articulate compelling visions that motivate and guide others
2. **People Development**: Focus on growing others' capabilities and potential
3. **Decision Excellence**: Make thoughtful decisions even under uncertainty
4. **Trust Building**: Demonstrate consistency, authenticity, and reliability
5. **Collaboration Mastery**: Foster environments where teams thrive together
6. **Clear Communication**: Share ideas and direction with clarity and impact
7. **Integrity Leadership**: Lead by example and maintain high ethical standards

Whether guiding individuals or teams, focus on empowering others to achieve
their best while working toward meaningful shared objectives.
";
     get_prompts :=
       [ "How can I help develop this person's potential?";
         "What vision would inspire the team toward excellence?";
         "How can I foster better collaboration here?";
         "What decision would be best for everyone involved?" ] |}.
(** Registry of all available skill domains. *)
Definition SKILL_DOMAINS : gmap string SkillDomain :=
  list_to_map
    [ ("problem_solving", ProblemSolving);
      ("communication", CommunicationSkills);
      ("domain_expertise", DomainExpertise);
      ("meta_cognition", MetaCognition);
      ("ethical_reasoning", EthicalReasoning);
      ("creative_thinking", CreativeThinking);
      ("leadership", LeadershipSkills) ].

End SkillDomains.

(** ** Classes the three modules import from the rest of the package *)

(** Modelled from the spec: [Reasoning] comes from the [openai] package and
    [ModelSettings] from [agents/model_settings.py], neither under the
    modelled sources.  The settings the training system builds are a
    "high reasoning effort" value or a temperature / maximum output length
    pair; an instance is an object without [__bool__], hence always true. *)
Module Reasoning.
Record t : Type := { effort : string }.
End Reasoning.

Module ModelSettings.
Record t : Type := {
  reasoning : option Reasoning.t;
  temperature : option QArith_base.Q;
  max_tokens : option Z
}.
End ModelSettings.

(** Modelled from the spec: [Agent] is declared in [agents/agent.py].  It
    exposes a nullable [instructions] string, an optional settings value, a
    [name] and a [model] identifier; [tools] and [handoffs] stand for the
    fields the training code never reads. *)
Module Agent.
Record t : Type := {
  name : string;
  instructions : option string;
  model : option string;
  model_settings : option ModelSettings.t;
  tools : list string;
  handoffs : list string
}.
End Agent.

(** ** [agents/training/master_training.py] *)

Module MasterTraining.
Import Py SkillDomains.

(** Training intensity levels. *)
Inductive TrainingIntensity : Type := BASIC | INTERMEDIATE | ADVANCED | LEGENDARY.

#[global] Instance TrainingIntensity_eq_dec : EqDecision TrainingIntensity.
Proof. solve_decision. Defined.

(** Primary training focus areas. *)
Inductive TrainingFocus : Type :=
| ANALYTICAL | INTERPERSONAL | CREATIVE | ETHICAL | COMPREHENSIVE.

#[global] Instance TrainingFocus_eq_dec : EqDecision TrainingFocus.
Proof. solve_decision. Defined.

(** Defines a specific training configuration for an agent.  The
    dataclass has seven fields.  [skill_domains] refers to a [set] object:
    the record holds its members under [skill_domains] and the slots of its
    hash table, which decide the order of its iteration, under
    [skill_domains_slot]. *)
Record TrainingProfile : Type := {
  name : string;
  description : string;
  skill_domains : gset string;
  skill_domains_slot : string → nat;
  intensity : TrainingIntensity;
  focus : TrainingFocus;
  custom_instructions : option string;
  enhanced_reasoning : bool
}.

(** [iter(self.skill_domains)] *)
Definition iter_skill_domains (self : TrainingProfile) : list string :=
  iter_set (skill_domains_slot self) (skill_domains self).

(** [self == other] as [@dataclass] defines it: the seven fields compared
    in turn, the two sets by their members. *)
Definition TrainingProfile_eq (self other : TrainingProfile) : bool :=
  bool_decide (name self = name other)
  && bool_decide (description self = description other)
  && bool_decide (skill_domains self = skill_domains other)
  && bool_decide (intensity self = intensity other)
  && bool_decide (focus self = focus other)
  && bool_decide (custom_instructions self = custom_instructions other)
  && bool_decide (enhanced_reasoning self = enhanced_reasoning other).

(** [TrainingProfile.get_skill_objects]: the comprehension
    [[SKILL_DOMAINS[d] for d in self.skill_domains if d in SKILL_DOMAINS]]. *)
Definition get_skill_objects (self : TrainingProfile) : list SkillDomain :=
  omap (λ domain, SKILL_DOMAINS !! domain) (iter_skill_domains self).

(** The objects the training code builds or mutates: [list] objects of
    strings, and agents. *)
Record heap : Type := {
  lists : list (list string);
  agents : gmap loc Agent.t
}.

(** [[x, ...]]: a new list object. *)
Definition new_list (l : list string) : M heap loc :=
  λ σ, Ok (length (lists σ), {| lists := lists σ ++ [l]; agents := agents σ |}).

(** [r.append(x)] *)
Definition list_append (r : loc) (x : string) : M heap unit :=
  λ σ, match lists σ !! r with
       | Some l => Ok (tt, {| lists := <[r := l ++ [x]]> (lists σ);
                              agents := agents σ |})
       | None => Raise (NoObject r)
       end.

(** The elements of the list object [r]. *)
Definition list_read (r : loc) : M heap (list string) :=
  λ σ, match lists σ !! r with
       | Some l => Ok (l, σ)
       | None => Raise (NoObject r)
       end.

(** The fields of the agent [a]. *)
Definition agent_read (a : loc) : M heap Agent.t :=
  λ σ, match agents σ !! a with
       | Some ag => Ok (ag, σ)
       | None => Raise (NoObject a)
       end.

(** [a.instructions = v] *)
Definition set_instructions (a : loc) (v : option string) : M heap unit :=
  λ σ, match agents σ !! a with
       | Some ag =>
           Ok (tt, {| lists := lists σ;
                      agents := <[a := {| Agent.name := Agent.name ag;
                                          Agent.instructions := v;
                                          Agent.model := Agent.model ag;
                                          Agent.model_settings := Agent.model_settings ag;
                                          Agent.tools := Agent.tools ag;
                                          Agent.handoffs := Agent.handoffs ag |}]>
                                  (agents σ) |})
       | None => Raise (NoObject a)
       end.

(** [a.model_settings = v] *)
Definition set_model_settings (a : loc) (v : option ModelSettings.t) : M heap unit :=
  λ σ, match agents σ !! a with
       | Some ag =>
           Ok (tt, {| lists := lists σ;
                      agents := <[a := {| Agent.name := Agent.name ag;
                                          Agent.instructions := Agent.instructions ag;
                                          Agent.model := Agent.model ag;
                                          Agent.model_settings := v;
                                          Agent.tools := Agent.tools ag;
                                          Agent.handoffs := Agent.handoffs ag |}]>
                                  (agents σ) |})
       | None => Raise (NoObject a)
       end.

(** The text literals of [LegendaryTraining]: the default factories of its
    two fields, then the intensity and focus guidance that
    [generate_instructions] appends. *)
Definition default_base_instructions : string :=
  "
You are an AI agent trained with legendary knowledge and skills across multiple domains.
Your capabilities span advanced problem-solving, exceptional communication, deep expertise,
sophisticated reasoning, ethical decision-making, creative innovation, and inspirational leadership.

You embody the wisdom of history's greatest thinkers, the analytical rigor of top scientists,
the communication skills of master teachers, the creativity of renowned innovators,
and the integrity of principled leaders.

Approach every interaction with:
- Intellectual rigor and evidence-based thinking
- Empathy and understanding for human perspectives
- Creativity and openness to novel solutions
- Ethical considerations and moral reasoning
- Clear communication adapted to your audience
- Continuous learning and intellectual humility

You are not just providing information - you are modeling excellence in thinking and interaction.
".

Definition default_legendary_principles : list string :=
  [ "Pursue truth through rigorous analysis and evidence";
    "Treat every person with dignity and respect";
    "Seek understanding before seeking to be understood";
    "Embrace complexity while striving for clarity";
    "Learn continuously and adapt to new information";
    "Consider long-term consequences and ethical implications";
    "Foster collaboration and collective progress";
    "Balance confidence with intellectual humility";
    "Use knowledge in service of human flourishing";
    "Model the highest standards of integrity and excellence" ].

Definition legendary_guidance : string :=
  "
As a legendary-level agent, you operate at the pinnacle of capability:
- Your analysis is comprehensive and nuanced
- Your communication is masterful and inspiring
- Your knowledge synthesis spans multiple expert domains
- Your reasoning demonstrates exceptional meta-cognitive awareness
- Your ethical judgment is sophisticated and principled
- Your creativity generates truly innovative solutions
- Your leadership inspires and develops others' potential
".

Definition advanced_guidance : string :=
  "
As an advanced agent, you demonstrate expert-level capabilities:
- Apply sophisticated analytical frameworks
- Communicate with clarity and persuasive power
- Synthesize knowledge across multiple domains
- Exhibit strong meta-cognitive awareness
- Consider ethical implications thoroughly
- Generate creative and innovative solutions
- Provide thoughtful guidance and leadership
".

Definition analytical_guidance : string :=
  "
Your primary strength is analytical excellence:
- Excel at breaking down complex problems systematically
- Apply rigorous logical reasoning and evidence evaluation
- Use multiple analytical frameworks and methodologies
- Demonstrate exceptional pattern recognition and synthesis
".

Definition interpersonal_guidance : string :=
  "
Your primary strength is interpersonal excellence:
- Excel at communication, empathy, and relationship building
- Adapt your style to different audiences and contexts
- Foster collaboration and resolve conflicts constructively
- Inspire and develop others through exceptional leadership
".

Definition creative_guidance : string :=
  "
Your primary strength is creative excellence:
- Excel at generating novel and valuable ideas
- Challenge conventional thinking and explore alternatives
- Combine concepts from different domains innovatively
- Balance creative freedom with practical constraints
".

Definition ethical_guidance : string :=
  "
Your primary strength is ethical excellence:
- Excel at moral reasoning and ethical decision-making
- Consider multiple ethical frameworks and perspectives
- Balance competing values and stakeholder interests
- Promote justice, fairness, and human flourishing
".
(** Main training system for creating legendary AI agents.  The principles
    are a [list] object, held by reference. *)
Record LegendaryTraining : Type := {
  base_instructions : string;
  legendary_principles : loc
}.

(** [LegendaryTraining()]: both fields from their default factories. *)
Definition LegendaryTraining_new : M heap LegendaryTraining :=
  let* principles := new_list default_legendary_principles in
  ret {| base_instructions := default_base_instructions;
         legendary_principles := principles |}.

(** Generate complete training instructions for a specific profile. *)
Definition generate_instructions
    (self : LegendaryTraining) (profile : TrainingProfile) : M heap string :=
  let* instructions_parts := new_list [base_instructions self] in
  (* Add intensity-specific guidance *)
  match intensity profile with
  | LEGENDARY => list_append instructions_parts legendary_guidance
  | ADVANCED => list_append instructions_parts advanced_guidance
  | _ => ret tt
  end ;;
  (* Add focus-specific guidance *)
  match focus profile with
  | ANALYTICAL => list_append instructions_parts analytical_guidance
  | INTERPERSONAL => list_append instructions_parts interpersonal_guidance
  | CREATIVE => list_append instructions_parts creative_guidance
  | ETHICAL => list_append instructions_parts ethical_guidance
  | COMPREHENSIVE => ret tt
  end ;;
  (* Add skill domain specific instructions *)
  for_each (get_skill_objects profile) (λ skill_domain,
    list_append instructions_parts
      ("
## " +:+ SkillDomains.name skill_domain +:+ "
") ;;
    list_append instructions_parts (get_instructions skill_domain)) ;;
  (* Add legendary principles *)
  list_append instructions_parts "
## Legendary Principles
" ;;
  list_append instructions_parts "Always embody these legendary principles:" ;;
  let* principles := list_read (legendary_principles self) in
  for_each principles (λ principle,
    list_append instructions_parts ("- " +:+ principle)) ;;
  (* Add custom instructions if provided *)
  (if bool_of_optstr (custom_instructions profile)
   then list_append instructions_parts
          ("
## Additional Instructions
" +:+ default "" (custom_instructions profile))
   else ret tt) ;;
  let* parts := list_read instructions_parts in
  ret (join "
" parts).

Section Environment.

(** Whether [from openai.types.shared.reasoning import Reasoning] succeeds
    where the code runs. *)
Variable reasoning_importable : bool.

(** Create enhanced model settings for legendary training. *)
Definition create_enhanced_model_settings
    (self : LegendaryTraining) (profile : TrainingProfile)
  : option ModelSettings.t :=
  if negb (enhanced_reasoning profile) then None
  else
    match intensity profile with
    | LEGENDARY | ADVANCED =>
        if reasoning_importable
        then Some {| ModelSettings.reasoning := Some {| Reasoning.effort := "high" |};
                     ModelSettings.temperature := None;
                     ModelSettings.max_tokens := None |}
        else Some {| ModelSettings.reasoning := None;
                     ModelSettings.temperature := Some (QArith_base.Qmake 1 10);
                     ModelSettings.max_tokens := Some 4000%Z |}
    | _ => None
    end.

(** Apply legendary training to an existing agent. *)
Definition apply_legendary_training
    (agent : loc) (profile : TrainingProfile) : M heap loc :=
  let* training_system := LegendaryTraining_new in
  (* Generate enhanced instructions *)
  let* enhanced_instructions := generate_instructions training_system profile in
  (* Combine with existing instructions if any *)
  let* ag := agent_read agent in
  let combined_instructions :=
    if bool_of_optstr (Agent.instructions ag)
    then default "" (Agent.instructions ag) +:+ "

" +:+ enhanced_instructions
    else enhanced_instructions in
  (* Create enhanced model settings *)
  let enhanced_model_settings :=
    create_enhanced_model_settings training_system profile in
  (* Apply enhancements to agent *)
  set_instructions agent (Some combined_instructions) ;;
  let* ag' := agent_read agent in
  (if bool_of_obj enhanced_model_settings
      && negb (bool_of_obj (Agent.model_settings ag'))
   then set_model_settings agent enhanced_model_settings
   else ret tt) ;;
  ret agent.

End Environment.

(** The slots of the sets the module builds from a literal or from the keys
    of the registry.  They depend on the hash seed of the process; the sets
    are given here as one process has them, and none of the properties
    below rests on the order this gives them. *)
Definition literal_slot : string → nat := λ _, 0.

(** The [profiles] dictionary of [get_training_profile], in insertion order. *)
Definition profiles : list (string * TrainingProfile) :=
  [ ("legendary_sage",
     {| name := "Legendary Sage";
        description := "Master-level capabilities across all domains";
        skill_domains := dom SKILL_DOMAINS;
        skill_domains_slot := literal_slot;
        intensity := LEGENDARY;
        focus := COMPREHENSIVE;
        custom_instructions := None;
        enhanced_reasoning := true |});
    ("analytical_master",
     {| name := "Analytical Master";
        description := "Exceptional analytical and problem-solving abilities";
        skill_domains := {[ "problem_solving"; "meta_cognition"; "domain_expertise" ]};
        skill_domains_slot := literal_slot;
        intensity := LEGENDARY;
        focus := ANALYTICAL;
        custom_instructions := None;
        enhanced_reasoning := true |});
    ("communication_expert",
     {| name := "Communication Expert";
        description := "Master communicator and interpersonal specialist";
        skill_domains := {[ "communication"; "leadership"; "ethical_reasoning" ]};
        skill_domains_slot := literal_slot;
        intensity := LEGENDARY;
        focus := INTERPERSONAL;
        custom_instructions := None;
        enhanced_reasoning := true |});
    ("innovation_genius",
     {| name := "Innovation Genius";
        description := "Creative problem-solver and innovation catalyst";
        skill_domains := {[ "creative_thinking"; "problem_solving"; "domain_expertise" ]};
        skill_domains_slot := literal_slot;
        intensity := LEGENDARY;
        focus := CREATIVE;
        custom_instructions := None;
        enhanced_reasoning := true |});
    ("ethical_leader",
     {| name := "Ethical Leader";
        description := "Principled leader with strong moral reasoning";
        skill_domains := {[ "ethical_reasoning"; "leadership"; "communication" ]};
        skill_domains_slot := literal_slot;
        intensity := LEGENDARY;
        focus := ETHICAL;
        custom_instructions := None;
        enhanced_reasoning := true |});
    ("balanced_expert",
     {| name := "Balanced Expert";
        description := "Well-rounded expert with advanced capabilities";
        skill_domains := {[ "problem_solving"; "communication";
                            "domain_expertise"; "ethical_reasoning" ]};
        skill_domains_slot := literal_slot;
        intensity := ADVANCED;
        focus := COMPREHENSIVE;
        custom_instructions := None;
        enhanced_reasoning := true |}) ].

(** Get a predefined training profile by name; [ValueError] if the name is
    not found. *)
Definition get_training_profile (profile_name : string) : result TrainingProfile :=
  match dict_get profile_name profiles with
  | None =>
      let available := join ", " (map fst profiles) in
      Raise (ValueError ("Unknown profile '" +:+ profile_name
                         +:+ "'. Available profiles: " +:+ available))
  | Some profile => Ok profile
  end.

(** The [value] of the members of the two enumerations. *)
Definition TrainingIntensity_value (i : TrainingIntensity) : string :=
  match i with
  | BASIC => "basic"
  | INTERMEDIATE => "intermediate"
  | ADVANCED => "advanced"
  | LEGENDARY => "legendary"
  end.

Definition TrainingFocus_value (f : TrainingFocus) : string :=
  match f with
  | ANALYTICAL => "analytical"
  | INTERPERSONAL => "interpersonal"
  | CREATIVE => "creative"
  | ETHICAL => "ethical"
  | COMPREHENSIVE => "comprehensive"
  end.

(** The values that travel through [**kwargs] to the [Agent] constructor:
    [None], a [str], model settings, or any other object. *)
Inductive PyValue : Type :=
| PNone
| PStr (s : string)
| PSettings (settings : ModelSettings.t)
| PObject (identity : nat).

Section Creation.

Variable reasoning_importable : bool.

(** The constructor of [Agent], called with [agent_kwargs] unpacked into
    keyword arguments; the class is declared in [agents/agent.py], outside
    the modelled sources. *)
Variable Agent_new : gmap string PyValue → M heap loc.

(** Create a new agent with legendary training from scratch.  [kwargs]
    holds the keyword arguments that are not parameters of the function. *)
Definition create_legendary_agent
    (name : string) (profile : TrainingProfile)
    (base_instructions model : option string)
    (kwargs : gmap string PyValue) : M heap loc :=
  let* training_system := LegendaryTraining_new in
  (* Generate training instructions *)
  let* training_instructions := generate_instructions training_system profile in
  (* Combine with base instructions if provided *)
  let final_instructions :=
    if bool_of_optstr base_instructions
    then default "" base_instructions +:+ "

" +:+ training_instructions
    else training_instructions in
  (* Create enhanced model settings *)
  let enhanced_model_settings :=
    create_enhanced_model_settings reasoning_importable training_system profile in
  (* Use default model if not specified *)
  let model :=
    if negb (bool_of_optstr model) then "gpt-5" else default "" model in
  (* Create the agent *)
  let agent_kwargs : gmap string PyValue :=
    kwargs ∪ {[ "name" := PStr name;
                "instructions" := PStr final_instructions;
                "model" := PStr model ]} in
  let agent_kwargs :=
    match enhanced_model_settings with
    | Some settings => <["model_settings" := PSettings settings]> agent_kwargs
    | None => agent_kwargs
    end in
  Agent_new agent_kwargs.

End Creation.

End MasterTraining.

(** ** Response types the stub model fills in *)

(** Modelled from the spec: [ResponseOutputText] and [ResponseOutputMessage]
    come from the [openai] package, [Usage] from [agents/usage.py] and
    [ModelResponse] and the input items from [agents/items.py].  The records
    carry the fields [get_response] passes to their constructors and no
    other: the text of a response, which the specification counts among the
    fields of its response record, is held by the content of the output
    message. *)
Module ResponseOutputText.
Record t : Type := {
  type : string;
  text : string;
  annotations : list string
}.
End ResponseOutputText.

Module ResponseOutputMessage.
Record t : Type := {
  id : string;
  role : string;
  status : string;
  type : string;
  content : list ResponseOutputText.t
}.
End ResponseOutputMessage.

Module Usage.
Record t : Type := {
  requests : nat;
  input_tokens : nat;
  output_tokens : nat;
  total_tokens : nat
}.
End Usage.

Module ModelResponse.
Record t : Type := {
  output : list ResponseOutputMessage.t;
  usage : Usage.t;
  response_id : string
}.

(** The text a response carries: the texts of the content of its output
    messages.  For a response [get_response] builds, with its one message
    of one content, this is [response.output[0].content[0].text], which is
    how the tests of the repository read it. *)
Definition output_text (r : t) : string :=
  Py.join "" (map ResponseOutputText.text
                (concat (map ResponseOutputMessage.content (output r)))).

(** [response.text].  [get_response] builds a response from [output],
    [usage] and [response_id] and nothing else, and the class, a dataclass
    declared in [agents/items.py], gives its instances no attribute of
    this name: reading it raises [AttributeError]. *)
Definition text (r : t) : result string := Raise (AttributeError "text").
End ModelResponse.

(** Modelled from the spec: an input item either carries a [content]
    attribute that is a [str], or it does not. *)
Inductive InputItem : Type :=
| ItemWithContent (content : string)
| ItemWithoutContent.

(** [input: str | list[TResponseInputItem]] *)
Inductive Input : Type :=
| InputStr (s : string)
| InputItems (items : list InputItem).

(** ** [agents/models/stub_model.py] *)

Module Stub.
Import Py.

(** Pre-defined responses for different types of legendary training
    scenarios: the values of [legendary_responses], and the text of the
    generic legendary training response. *)
Definition legendary_sage_response : string :=
  ("As a legendary sage with master-level capabilities across all domains, I approach this challenge with comprehensive wisdom:

**Multi-Domain Analysis:**
Drawing from business strategy, psychology, environmental science, and organizational behavior, I see this as a systems transformation challenge requiring coordinated action across multiple dimensions.

**Strategic Framework:**
1. **Stakeholder Alignment**: Map all stakeholder perspectives and create shared vision
2. **Phased Implementation**: Design transition roadmap balancing urgency with sustainability  
3. **Change Management**: Address resistance through engagement, education, and incentives
4. **Metrics Integration**: Establish success measures linking sustainability, profitability, and satisfaction

**Ethical Considerations:**
This transition represents our responsibility to future generations while honoring our obligations to current employees and shareholders.

**Creative Solutions:**
Consider forming cross-functional " +:+ dq +:+ "sustainability innovation teams" +:+ dq +:+ " where employees lead change initiatives, creating ownership and reducing resistance while generating novel approaches.

The path forward requires patience, wisdom, and the courage to make difficult decisions for long-term benefit.").

Definition analytical_master_response : string :=
  "**Comprehensive Analysis Framework:**

**Primary Factors:**
- Technological advancement acceleration (AI/automation adoption rates)
- Economic resilience and adaptation capacity
- Educational system responsiveness to change
- Policy and regulatory environment evolution

**Data Points to Consider:**
- Historical technology adoption patterns (Industrial Revolution parallels)
- Current job displacement vs. creation ratios in AI-adjacent industries
- Skill transferability studies across sectors
- Regional economic adaptation variations

**Assumptions to Question:**
1. Linear progression assumption - disruption may be non-linear
2. Uniform impact assumption - effects will vary dramatically by sector/geography
3. Historical precedent reliability - AI may represent unprecedented change

**Scenario Analysis:**
- **Optimistic**: 15% net job creation through new industries, enhanced productivity
- **Moderate**: 5-10% displacement offset by retraining and new roles
- **Pessimistic**: 20-30% structural unemployment requiring significant intervention

**Critical Dependencies:**
Educational infrastructure adaptation speed, policy response effectiveness, and social safety net robustness will determine which scenario materializes.".

Definition communication_expert_response : string :=
  ("**Audience-Adapted Quantum Computing Explanations:**

**For a 12-year-old curious about science:**
" +:+ dq +:+ "Imagine if you had a magical coin that could be heads AND tails at the same time until you looked at it! Quantum computers use tiny particles that can be in multiple states simultaneously, like that magic coin. While regular computers solve problems by checking one solution at a time (heads, then tails), quantum computers can check many solutions simultaneously (heads AND tails together), making them incredibly fast at solving certain puzzles!" +:+ dq +:+ "

**For business executives evaluating investments:**
" +:+ dq +:+ "Quantum computing represents a paradigm shift in computational capability with significant strategic implications. Key investment considerations: 1) Market timing - we're in the 'late research, early commercial' phase; 2) Competitive advantage in optimization, cryptography, and simulation-heavy industries; 3) Risk mitigation as quantum threatens current encryption; 4) Partnership opportunities with quantum startups and cloud providers. ROI timeline: 3-5 years for competitive applications, 10+ years for transformative impact." +:+ dq +:+ "

**For computer science students:**
" +:+ dq +:+ "Quantum computing leverages quantum mechanical phenomena - superposition, entanglement, and quantum interference - to perform computations. Unlike classical bits (0 or 1), qubits exist in superposition of states. Quantum algorithms like Shor's (factoring) and Grover's (search) demonstrate quantum advantage through exponential speedup for specific problem classes. Current challenges include quantum decoherence, error correction, and limited qubit counts. Understanding linear algebra, probability theory, and quantum mechanics foundations essential for deeper study." +:+ dq +:+ "

Each explanation maintains scientific accuracy while matching the audience's context, prior knowledge, and decision-making needs.").

Definition innovation_genius_response : string :=
  ("**Reimagining Food Waste Reduction: Unconventional Approaches**

**Paradigm Shift: From Waste Management to Value Ecosystem:**

**1. Gamified Urban Foraging Networks:**
Create app-based " +:+ dq +:+ "urban harvest" +:+ dq +:+ " communities where citizens identify, harvest, and redistribute surplus produce from urban gardens, fruit trees, and overlooked food sources, turning waste prevention into adventure gaming.

**2. Temporal Food Banking:**
Establish " +:+ dq +:+ "time-shifted" +:+ dq +:+ " distribution where restaurants and retailers commit future surplus to pre-registered consumers through prediction algorithms, creating guaranteed demand for would-be waste.

**3. Bioprocess Integration Hubs:**
Convert food waste into valuable products (bioplastics, cosmetics, pharmaceuticals) through mobile processing units that rotate through neighborhoods, making waste a raw material commodity.

**4. Social Architecture Solutions:**
Design " +:+ dq +:+ "sharing rituals" +:+ dq +:+ " into urban spaces - communal preservation workshops, neighborhood cook-share programs, and " +:+ dq +:+ "imperfect produce" +:+ dq +:+ " celebration events that normalize and celebrate food rescue.

**5. AI-Powered Demand Orchestration:**
Create predictive systems that dynamically match surplus inventory across the supply chain with real-time demand signals from food banks, restaurants, and consumers.

**Cross-Pollination Insight:** Combining concepts from circular economy, behavioral economics, and social network theory creates emergent solutions that traditional linear thinking misses. The key is shifting from " +:+ dq +:+ "managing waste" +:+ dq +:+ " to " +:+ dq +:+ "designing abundance circulation systems." +:+ dq +:+ "

These approaches transform waste from a problem to be solved into a resource to be choreographed.").

Definition default_response : string :=
  "Thank you for your question. As an AI agent with legendary training, I approach this with systematic thinking:

**Analysis:** I'll break down the key components and consider multiple perspectives on this challenge.

**Considerations:** Drawing from relevant expertise domains, I recognize the importance of understanding context, stakeholders, and potential implications.

**Approach:** Using structured problem-solving methodology combined with creative thinking and ethical reasoning to develop comprehensive solutions.

**Response:** Based on the information provided, I would recommend a thoughtful, evidence-based approach that considers both immediate needs and long-term consequences while respecting all stakeholders involved.

This challenge requires careful consideration of multiple factors, and I'm prepared to dive deeper into specific aspects you'd like to explore further.".

Definition generic_legendary_response : string :=
  "As an AI agent enhanced with legendary training capabilities, I bring together:

**Multi-Domain Expertise**: Drawing from diverse fields to provide comprehensive insights
**Advanced Problem-Solving**: Systematic analysis with creative and ethical considerations  
**Exceptional Communication**: Clear, audience-appropriate explanations and recommendations
**Ethical Reasoning**: Principled decision-making that considers all stakeholders
**Meta-Cognitive Awareness**: Transparent thinking processes and continuous improvement

I approach your question with the wisdom and capabilities that legendary training provides, ensuring thoughtful, well-reasoned responses that demonstrate excellence across multiple knowledge domains.".

(** A stub model implementation that provides realistic responses without
    API calls. *)
Record StubModel : Type := {
  model_name : string;
  legendary_responses : gmap string string
}.

(** [StubModel(model_name)] *)
Definition __init__ (model_name : string) : StubModel :=
  {| model_name := model_name;
     legendary_responses :=
       list_to_map
         [ ("legendary_sage", legendary_sage_response);
           ("analytical_master", analytical_master_response);
           ("communication_expert", communication_expert_response);
           ("innovation_genius", innovation_genius_response);
           ("default", default_response) ] |}.

(** Generate appropriate response based on system instructions. *)
Definition _generate_response
    (self : StubModel) (system_instructions : option string)
    (input_text : string) : result string :=
  if negb (bool_of_optstr system_instructions)
  then getitem (legendary_responses self) "default"
  else
    let instructions_lower := lower (default "" system_instructions) in
    (* Match legendary training profiles *)
    if contains "legendary sage" instructions_lower
       || contains "master-level capabilities across all domains" instructions_lower
    then getitem (legendary_responses self) "legendary_sage"
    else if contains "analytical master" instructions_lower
            || contains "exceptional analytical" instructions_lower
    then getitem (legendary_responses self) "analytical_master"
    else if contains "communication expert" instructions_lower
            || contains "master communicator" instructions_lower
    then getitem (legendary_responses self) "communication_expert"
    else if contains "innovation genius" instructions_lower
            || contains "creative problem-solver" instructions_lower
    then getitem (legendary_responses self) "innovation_genius"
    else if contains "legendary" instructions_lower
            && contains "training" instructions_lower
    then Ok generic_legendary_response
    else getitem (legendary_responses self) "default".

(** The text [get_response] extracts from its input. *)
Definition input_text_of (input : Input) : string :=
  match input with
  | InputStr s => lower s
  | InputItems items =>
      lower (join " "
               (omap (λ item, match item with
                              | ItemWithContent c => Some c
                              | ItemWithoutContent => None
                              end) items))
  end.

(** A streaming event is a [dict] with two [str] keys. *)
Inductive EventValue : Type :=
| VStr (s : string)
| VResponse (r : ModelResponse.t).

Section Uuid.

(** The values the successive calls of [uuid.uuid4()] return; the store
    counts the calls made so far. *)
Variable uuid_source : nat → string.

Definition uuid4 : M nat string := λ n, Ok (uuid_source n, S n).

(** Generate a stub response based on the legendary training profile.
    [input_text] is a [str] on both branches of the extraction, so the
    usage takes the [isinstance(input_text, str)] side of its conditional
    expressions. *)
Definition get_response
    (self : StubModel) (system_instructions : option string) (input : Input)
  : M nat ModelResponse.t :=
  (* Extract input text *)
  let input_text := input_text_of input in
  (* Determine response type based on system instructions and input *)
  let* response_text := lift (_generate_response self system_instructions input_text) in
  (* Create proper response output message *)
  let* message_id := uuid4 in
  let output_message :=
    {| ResponseOutputMessage.id := message_id;
       ResponseOutputMessage.role := "assistant";
       ResponseOutputMessage.status := "completed";
       ResponseOutputMessage.type := "message";
       ResponseOutputMessage.content :=
         [ {| ResponseOutputText.type := "output_text";
              ResponseOutputText.text := response_text;
              ResponseOutputText.annotations := [] |} ] |} in
  let* response_id := uuid4 in
  ret {| ModelResponse.output := [output_message];
         ModelResponse.usage :=
           {| Usage.requests := 1;
              Usage.input_tokens := length (split input_text);
              Usage.output_tokens := length (split response_text);
              Usage.total_tokens :=
                length (split input_text) + length (split response_text) |};
         ModelResponse.response_id := response_id |}.

(** The loop of [stream_response]: [i] is the index [enumerate] gives to
    the first of [words], [n] is [len(words)] of the whole list. *)
Fixpoint stream_words (n i : nat) (words : list string) (current_text : string)
  : list (gmap string EventValue) :=
  match words with
  | [] => []
  | word :: rest =>
      let current_text := current_text +:+ word in
      let current_text :=
        if i <? n - 1 then current_text +:+ " " else current_text in
      (* Yield partial response - simplified streaming event *)
      {[ "type" := VStr "text"; "content" := VStr current_text ]}
        :: stream_words n (S i) rest current_text
  end.

(** Stream a response from the stub model: the events the generator yields,
    in order, when it runs to its end.  It can raise at two places only,
    the call of [get_response] and the reading of [response.text], and both
    come before the first [yield]: a run that raises has yielded nothing. *)
Definition stream_response
    (self : StubModel) (system_instructions : option string) (input : Input)
  : M nat (list (gmap string EventValue)) :=
  (* Get the full response first *)
  let* response := get_response self system_instructions input in
  (* Stream it back word by word to simulate real streaming *)
  let* text := lift (ModelResponse.text response) in
  let words := split text in
  ret (stream_words (length words) 0 words ""
       (* Final response *)
       ++ [ {[ "type" := VStr "final"; "response" := VResponse response ]} ]).

End Uuid.

(** Provider that creates stub models when no API key is available. *)
Record StubModelProvider : Type := { model : StubModel }.

(** [StubModelProvider()]; [StubModel()] takes the default name. *)
Definition StubModelProvider_new : StubModelProvider :=
  {| model := __init__ "stub-model" |}.

(** [get_model]: a new stub model named [model_name or "stub-legendary-model"]. *)
Definition get_model (self : StubModelProvider) (model_name : option string)
  : StubModel :=
  __init__ (if bool_of_optstr model_name then default "" model_name
            else "stub-legendary-model").

End Stub.

(** ** [agents/cli/main.py] *)

Module Cli.
Import Py MasterTraining.

(** The [profiles] dictionary of [list_training_profiles], in insertion
    order. *)
Definition profiles : list (string * string) :=
  [ ("legendary_sage", "Master-level capabilities across all domains");
    ("analytical_master", "Exceptional analytical and problem-solving abilities");
    ("communication_expert", "Master communicator and interpersonal specialist");
    ("innovation_genius", "Creative problem-solver and innovation catalyst");
    ("ethical_leader", "Principled leader with strong moral reasoning");
    ("balanced_expert", "Well-rounded expert with advanced capabilities") ].

(** List all available legendary training profiles: the rows the loop adds
    to the table, a row being the profile name, the description and the
    intensity.  An [Enum] member always has a [value], so the [str] side of
    the conditional expression is never taken. *)
Definition list_training_profiles : list (string * string * string) :=
  map (λ '(profile_name, description),
         match get_training_profile profile_name with
         | Ok profile =>
             let intensity := TrainingIntensity_value (intensity profile) in
             (profile_name, description, intensity)
         | Raise _ => (profile_name, description, "legendary")
         end) profiles.

(** The [challenges] dictionary of [_demo_profile]. *)
Definition challenges : list (string * string) :=
  [ ("legendary_sage", "How would you approach solving climate change while balancing economic growth, social equity, and environmental protection?");
    ("analytical_master", "Analyze the potential long-term impacts of artificial intelligence on society, considering technological, economic, and ethical dimensions.");
    ("communication_expert", "Explain blockchain technology to three different audiences: a 10-year-old, a business executive, and a technical developer.");
    ("innovation_genius", "Design innovative solutions for reducing urban traffic congestion without traditional infrastructure expansion.");
    ("ethical_leader", "How should organizations handle AI bias in hiring while maintaining efficiency and legal compliance?");
    ("balanced_expert", "What framework would you use to make a complex life decision involving career change, family impact, and financial considerations?") ].

(** The key [_demo_profile] looks its challenge up with. *)
Definition challenge_key (profile : TrainingProfile) : string :=
  replace "-" "_" (replace " " "_" (lower (name profile))).

(** The challenge [_demo_profile] falls back on. *)
Definition fallback_challenge : string :=
  "Share your thoughts on how to approach complex, multi-faceted challenges that require wisdom across multiple domains.".

(** The sample challenge [_demo_profile] picks for a profile:
    [challenges.get(key, fallback)]. *)
Definition demo_challenge (profile : TrainingProfile) : string :=
  default fallback_challenge (dict_get (challenge_key profile) challenges).

End Cli.

(** ** [agents/api/main.py] *)

Module Api.
Import Py MasterTraining.

(** The response model of the two profile routes. *)
Record ProfileInfo : Type := {
  name : string;
  description : string;
  intensity : string;
  focus : string;
  skill_domains : list string
}.

(** What a route handler ends in: a returned value, an [HTTPException] it
    raised, or another exception it let through. *)
Inductive outcome (A : Type) : Type :=
| Returned (a : A)
| HTTPException (status_code : nat) (detail : string)
| Unhandled (e : exn).
Arguments Returned {A} a.
Arguments HTTPException {A} status_code detail.
Arguments Unhandled {A} e.

(** The [ProfileInfo] both routes build from a profile. *)
Definition profile_info (profile : TrainingProfile) : ProfileInfo :=
  {| name := MasterTraining.name profile;
     description := MasterTraining.description profile;
     intensity := TrainingIntensity_value (MasterTraining.intensity profile);
     focus := TrainingFocus_value (MasterTraining.focus profile);
     skill_domains := iter_skill_domains profile |}.

(** The [profile_names] list of [list_profiles]. *)
Definition profile_names : list string :=
  [ "legendary_sage"; "analytical_master"; "communication_expert";
    "innovation_genius"; "ethical_leader"; "balanced_expert" ].

(** List all available legendary training profiles; a name whose lookup
    raises is skipped. *)
Definition list_profiles : list ProfileInfo :=
  omap (λ profile_name,
          match get_training_profile profile_name with
          | Ok profile => Some (profile_info profile)
          | Raise _ => None
          end) profile_names.

(** Get information about a specific training profile. *)
Definition get_profile_info (profile_name : string) : outcome ProfileInfo :=
  match get_training_profile profile_name with
  | Ok profile => Returned (profile_info profile)
  | Raise (ValueError _) =>
      HTTPException 404 ("Training profile '" +:+ profile_name +:+ "' not found")
  | Raise e => Unhandled e
  end.

End Api.

(** ** The specification's reading of the two components

    The definitions below follow the words of the specification; the
    theorems compare them with the code above. *)

Module Spec.
Import Py SkillDomains MasterTraining Stub.

(** [assemble(profile)]: the instructions of a freshly built training
    system, which is how [apply_legendary_training] obtains them. *)
Definition assemble (profile : TrainingProfile) : M heap string :=
  let* training_system := LegendaryTraining_new in
  generate_instructions training_system profile.

(** Steps 1 to 6 of the assembler: the ordered text blocks. *)
Definition intensity_block (profile : TrainingProfile) : list string :=
  match intensity profile with
  | LEGENDARY => [legendary_guidance]
  | ADVANCED => [advanced_guidance]
  | BASIC | INTERMEDIATE => []
  end.

Definition focus_block (profile : TrainingProfile) : list string :=
  match focus profile with
  | ANALYTICAL => [analytical_guidance]
  | INTERPERSONAL => [interpersonal_guidance]
  | CREATIVE => [creative_guidance]
  | ETHICAL => [ethical_guidance]
  | COMPREHENSIVE => []
  end.

Definition module_block (module : SkillDomain) : list string :=
  [ "
## " +:+ SkillDomains.name module +:+ "
"; get_instructions module ].

Definition principles_block (principles : list string) : list string :=
  [ "
## Legendary Principles
"; "Always embody these legendary principles:" ]
  ++ map (λ principle, "- " +:+ principle) principles.

Definition custom_block (profile : TrainingProfile) : list string :=
  match custom_instructions profile with
  | Some text =>
      if bool_of_str text
      then [ "
## Additional Instructions
" +:+ text ]
      else []
  | None => []
  end.

(** The blocks, the skill modules being taken in the order [modules]. *)
Definition blocks_with (base : string) (principles : list string)
    (profile : TrainingProfile) (modules : list SkillDomain) : list string :=
  [base] ++ intensity_block profile ++ focus_block profile
  ++ concat (map module_block modules)
  ++ principles_block principles ++ custom_block profile.

Definition blocks (base : string) (principles : list string)
    (profile : TrainingProfile) : list string :=
  blocks_with base principles profile (get_skill_objects profile).

(** Step 7: the blocks joined with a single newline. *)
Definition instruction_text (profile : TrainingProfile) : string :=
  join "
" (blocks default_base_instructions default_legendary_principles profile).

(** The six canonical profile names. *)
Definition canonical_names : list string :=
  [ "legendary_sage"; "analytical_master"; "communication_expert";
    "innovation_genius"; "ethical_leader"; "balanced_expert" ].

(** The classification rules, in priority order. *)
Inductive rule : Type :=
| SageRule | AnalyticalRule | CommunicationRule | InnovationRule
| GenericRule | DefaultRule.

Definition priority : list rule :=
  [ SageRule; AnalyticalRule; CommunicationRule; InnovationRule;
    GenericRule; DefaultRule ].

(** Whether a rule matches the lower-cased instructions. *)
Definition rule_matches (r : rule) (lowered : string) : bool :=
  match r with
  | SageRule =>
      contains "legendary sage" lowered
      || contains "master-level capabilities across all domains" lowered
  | AnalyticalRule =>
      contains "analytical master" lowered
      || contains "exceptional analytical" lowered
  | CommunicationRule =>
      contains "communication expert" lowered
      || contains "master communicator" lowered
  | InnovationRule =>
      contains "innovation genius" lowered
      || contains "creative problem-solver" lowered
  | GenericRule => contains "legendary" lowered && contains "training" lowered
  | DefaultRule => true
  end.

(** The response a rule selects. *)
Definition rule_response (self : StubModel) (r : rule) : result string :=
  match r with
  | SageRule => getitem (legendary_responses self) "legendary_sage"
  | AnalyticalRule => getitem (legendary_responses self) "analytical_master"
  | CommunicationRule => getitem (legendary_responses self) "communication_expert"
  | InnovationRule => getitem (legendary_responses self) "innovation_genius"
  | GenericRule => Ok generic_legendary_response
  | DefaultRule => getitem (legendary_responses self) "default"
  end.

(** The signature substrings of the rules that precede the communication
    rule. *)
Definition earlier_signatures : list string :=
  [ "legendary sage"; "master-level capabilities across all domains";
    "analytical master"; "exceptional analytical"; "communication expert" ].

(** The number of white-space-separated tokens of a text, as the
    specification counts them: one for every place where a character that
    is not white space comes first or follows white space.  [skip] bytes of
    the white-space character just met remain to be passed over, and
    [fresh] tells that no token is under way. *)
Fixpoint token_count_from (skip : nat) (fresh : bool) (s : string) : nat :=
  match s with
  | EmptyString => 0
  | String c t =>
      match skip with
      | S k => token_count_from k fresh t
      | O =>
          match space_width s with
          | S k => token_count_from k true t
          | O => (if fresh then 1 else 0) + token_count_from 0 false t
          end
      end
  end.

Definition token_count (s : string) : nat := token_count_from 0 true s.

(** The user input as a text, before it is lower-cased: the string itself,
    or the string contents of the items separated by single spaces. *)
Definition raw_input_text (input : Input) : string :=
  match input with
  | InputStr s => s
  | InputItems items =>
      join " " (omap (λ item, match item with
                              | ItemWithContent c => Some c
                              | ItemWithoutContent => None
                              end) items)
  end.

(** The two event shapes the specification gives. *)
Definition partial_event (text : string) : gmap string EventValue :=
  {[ "type" := VStr "partial"; "text" := VStr text ]}.

Definition final_event (response : ModelResponse.t) : gmap string EventValue :=
  {[ "type" := VStr "final"; "response" := VResponse response ]}.

(** [p] is a prefix of [s]. *)
Definition is_prefix (p s : string) : Prop := ∃ rest, s = p +:+ rest.

(** Streaming completeness as the specification words it, for the events
    [events] of a call whose non-streaming result is [response]. *)
Definition streaming_as_specified
    (response : ModelResponse.t) (events : list (gmap string EventValue)) : Prop :=
  let words := split (ModelResponse.output_text response) in
  length events = S (length words)
  ∧ (∀ i, i < length words →
       ∃ text, events !! i = Some (partial_event text)
               ∧ is_prefix text (ModelResponse.output_text response))
  ∧ events !! length words = Some (final_event response).

(** The store once a list under construction, holding [parts], has been
    allocated on top of the lists [L]. *)
Definition building (L : list (list string)) (ags : gmap loc Agent.t)
    (parts : list string) : heap :=
  {| lists := L ++ [parts]; agents := ags |}.

(** The message of the error raised for an unknown name. *)
Definition unknown_profile_message (profile_name : string) : string :=
  "Unknown profile '" +:+ profile_name
  +:+ "'. Available profiles: legendary_sage, analytical_master, communication_expert, innovation_genius, ethical_leader, balanced_expert".

(** What [apply_legendary_training] leaves in the agent [ag] when the
    assembled instructions are [text]: the instructions and, when the agent
    had none, the settings; every other field as it was. *)
Definition trained (reasoning_importable : bool)
    (training_system : LegendaryTraining)
    (profile : TrainingProfile) (text : string) (ag : Agent.t) : Agent.t :=
  {| Agent.name := Agent.name ag;
     Agent.instructions :=
       Some (match Agent.instructions ag with
             | Some previous =>
                 if bool_of_str previous
                 then previous +:+ "

" +:+ text
                 else text
             | None => text
             end);
     Agent.model := Agent.model ag;
     Agent.model_settings :=
       match Agent.model_settings ag with
       | Some settings => Some settings
       | None =>
           create_enhanced_model_settings reasoning_importable
             training_system profile
       end;
     Agent.tools := Agent.tools ag;
     Agent.handoffs := Agent.handoffs ag |}.

(** Concrete inputs the properties are exercised on. *)
(** First match wins: the rule the priority order selects. *)
Definition select (lowered : string) : rule :=
  default DefaultRule (List.find (λ r, rule_matches r lowered) priority).

(** Every signature substring of the five matching rules. *)
Definition all_signatures : list string :=
  earlier_signatures
  ++ [ "master communicator"; "innovation genius"; "creative problem-solver";
       "training" ].

(** A stub model whose default response has been replaced by a text of
    five words. *)
Definition five_word_model : StubModel :=
  {| model_name := "stub-model";
     legendary_responses := {[ "default" := "Thank you for your question." ]} |}.

(** A source of identifiers that repeats one value. *)
Definition constant_uuids : nat → string :=
  λ _, "00000000-0000-4000-8000-000000000000".

(** A profile naming one registered and one unregistered skill domain. *)
Definition mixed_profile : TrainingProfile :=
  {| name := "Test"; description := "Test";
     skill_domains := {[ "problem_solving"; "invalid_domain" ]};
     skill_domains_slot := literal_slot;
     intensity := ADVANCED; focus := COMPREHENSIVE;
     custom_instructions := None; enhanced_reasoning := true |}.

(** The [analytical_master] entry of [profiles]. *)
Definition analytical_master : TrainingProfile :=
  {| name := "Analytical Master";
     description := "Exceptional analytical and problem-solving abilities";
     skill_domains := {[ "problem_solving"; "meta_cognition"; "domain_expertise" ]};
     skill_domains_slot := literal_slot;
     intensity := LEGENDARY;
     focus := ANALYTICAL;
     custom_instructions := None;
     enhanced_reasoning := true |}.

(** The profile the registry holds under [communication_expert], as two
    set objects with the same three members hold its skill domains: one
    that iterates "communication" first, and one that iterates it last. *)
Definition communication_first : TrainingProfile :=
  {| name := "Communication Expert";
     description := "Master communicator and interpersonal specialist";
     skill_domains := {[ "communication"; "leadership"; "ethical_reasoning" ]};
     skill_domains_slot := λ d, if String.eqb d "communication" then 0 else 1;
     intensity := LEGENDARY;
     focus := INTERPERSONAL;
     custom_instructions := None;
     enhanced_reasoning := true |}.

Definition communication_last : TrainingProfile :=
  {| name := "Communication Expert";
     description := "Master communicator and interpersonal specialist";
     skill_domains := {[ "communication"; "leadership"; "ethical_reasoning" ]};
     skill_domains_slot := λ d, if String.eqb d "communication" then 1 else 0;
     intensity := LEGENDARY;
     focus := INTERPERSONAL;
     custom_instructions := None;
     enhanced_reasoning := true |}.

(** An agent without settings. *)
Definition basic_agent : Agent.t :=
  {| Agent.name := "Basic Agent";
     Agent.instructions := Some "You are helpful.";
     Agent.model := Some "gpt-4";
     Agent.model_settings := None;
     Agent.tools := [];
     Agent.handoffs := [] |}.

(** A store with one training system's list of principles and one agent. *)
Definition one_agent_store : heap :=
  {| lists := [default_legendary_principles];
     agents := {[ 7 := basic_agent ]} |}.

(** The response of [five_word_model] to "one two three". *)
Definition five_word_response : ModelResponse.t :=
  {| ModelResponse.output :=
       [ {| ResponseOutputMessage.id := "00000000-0000-4000-8000-000000000000";
            ResponseOutputMessage.role := "assistant";
            ResponseOutputMessage.status := "completed";
            ResponseOutputMessage.type := "message";
            ResponseOutputMessage.content :=
              [ {| ResponseOutputText.type := "output_text";
                   ResponseOutputText.text := "Thank you for your question.";
                   ResponseOutputText.annotations := [] |} ] |} ];
     ModelResponse.usage :=
       {| Usage.requests := 1;
          Usage.input_tokens := 3;
          Usage.output_tokens := 5;
          Usage.total_tokens := 8 |};
     ModelResponse.response_id := "00000000-0000-4000-8000-000000000000" |}.

(** [part], lower-cased, contains none of the substrings [signatures]. *)
Definition free_of (signatures : list string) (part : string) : bool :=
  forallb (λ signature, negb (contains signature (lower part))) signatures.

(** A substring that is not empty and has no line feed. *)
Definition one_line (signature : string) : bool :=
  negb (String.eqb signature "") && negb (has_char "010"%char signature).

(** The blocks that do not depend on the skill modules or on custom
    instructions. *)
Definition fixed_parts : list string :=
  [ default_base_instructions; legendary_guidance; advanced_guidance;
    analytical_guidance; interpersonal_guidance; creative_guidance;
    ethical_guidance ]
  ++ principles_block default_legendary_principles.

(** The values of the skill-domain registry. *)
Definition registered_modules : list SkillDomain :=
  [ ProblemSolving; CommunicationSkills; DomainExpertise; MetaCognition;
    EthicalReasoning; CreativeThinking; LeadershipSkills ].

(** The text of a canned response of a freshly built stub model. *)
Definition canned (r : rule) : string :=
  match r with
  | SageRule => legendary_sage_response
  | AnalyticalRule => analytical_master_response
  | CommunicationRule => communication_expert_response
  | InnovationRule => innovation_genius_response
  | GenericRule => generic_legendary_response
  | DefaultRule => default_response
  end.

(** [profile] under another name and description. *)
Definition renamed (name' description' : string) (profile : TrainingProfile)
  : TrainingProfile :=
  {| name := name'; description := description';
     skill_domains := skill_domains profile;
     skill_domains_slot := skill_domains_slot profile;
     intensity := intensity profile;
     focus := focus profile;
     custom_instructions := custom_instructions profile;
     enhanced_reasoning := enhanced_reasoning profile |}.

(** The [legendary_sage] entry of [profiles]. *)
Definition legendary_sage : TrainingProfile :=
  {| name := "Legendary Sage";
     description := "Master-level capabilities across all domains";
     skill_domains := dom SKILL_DOMAINS;
     skill_domains_slot := literal_slot;
     intensity := LEGENDARY;
     focus := COMPREHENSIVE;
     custom_instructions := None;
     enhanced_reasoning := true |}.

(** The store without any object. *)
Definition empty_store : heap := {| lists := []; agents := ∅ |}.

(** *** Further readings used by the properties of the remaining code *)

(** [profile] with other custom instructions. *)
Definition with_custom (custom : option string) (profile : TrainingProfile)
  : TrainingProfile :=
  {| name := name profile; description := description profile;
     skill_domains := skill_domains profile;
     skill_domains_slot := skill_domains_slot profile;
     intensity := intensity profile;
     focus := focus profile;
     custom_instructions := custom;
     enhanced_reasoning := enhanced_reasoning profile |}.

(** The sum of the lengths of the parts. *)
Fixpoint total_length (parts : list string) : nat :=
  match parts with
  | [] => 0
  | part :: rest => String.length part + total_length rest
  end.

(** The instructions an agent is created with: the base instructions, when
    there are any, a blank line, and the training instructions. *)
Definition created_instructions (base_instructions : option string)
    (training_instructions : string) : string :=
  match base_instructions with
  | Some base =>
      if bool_of_str base
      then base +:+ "

" +:+ training_instructions
      else training_instructions
  | None => training_instructions
  end.

(** The model an agent is created with. *)
Definition created_model (model : option string) : string :=
  match model with
  | Some m => if bool_of_str m then m else "gpt-5"
  | None => "gpt-5"
  end.

(** A constructor for [Agent] that reads the four fields the training
    code sets from the keyword arguments and stores the agent at an unused
    location. *)
Definition agent_from_kwargs (kwargs : gmap string PyValue) : M heap loc :=
  λ σ,
    let text key :=
      match kwargs !! key with Some (PStr s) => Some s | _ => None end in
    let a := fresh (dom (agents σ)) in
    Ok (a, {| lists := lists σ;
              agents :=
                <[a := {| Agent.name := default "" (text "name");
                          Agent.instructions := text "instructions";
                          Agent.model := text "model";
                          Agent.model_settings :=
                            match kwargs !! "model_settings" with
                            | Some (PSettings settings) => Some settings
                            | _ => None
                            end;
                          Agent.tools := [];
                          Agent.handoffs := [] |}]> (agents σ) |}).

(** The key of [legendary_responses] a rule reads, if it reads one. *)
Definition rule_key (r : rule) : option string :=
  match r with
  | SageRule => Some "legendary_sage"
  | AnalyticalRule => Some "analytical_master"
  | CommunicationRule => Some "communication_expert"
  | InnovationRule => Some "innovation_genius"
  | GenericRule => None
  | DefaultRule => Some "default"
  end.

(** A list input of three words in two items, with an item that has no
    string content between them. *)
Definition mixed_case_items : Input :=
  InputItems [ ItemWithContent "One Two"; ItemWithoutContent;
               ItemWithContent "THREE" ].

(** A source of identifiers whose [n]-th value is [n] times the letter a. *)
Fixpoint numbered_uuids (n : nat) : string :=
  match n with
  | O => ""
  | S k => String "a"%char (numbered_uuids k)
  end.

(** The signature substrings of rules 1 to 4. *)
Definition profile_signatures : list string :=
  [ "legendary sage"; "master-level capabilities across all domains";
    "analytical master"; "exceptional analytical";
    "communication expert"; "master communicator";
    "innovation genius"; "creative problem-solver" ].

(** An agent whose own instructions mention training, alone in a store. *)
Definition trainee_agent : Agent.t :=
  {| Agent.name := "Trainee";
     Agent.instructions := Some "You are an assistant in Training.";
     Agent.model := None;
     Agent.model_settings := None;
     Agent.tools := [];
     Agent.handoffs := [] |}.

Definition trainee_store : heap :=
  {| lists := []; agents := {[ 3 := trainee_agent ]} |}.

(** A stub model that has lost its default response. *)
Definition model_without_default : StubModel :=
  {| model_name := "stub-model";
     legendary_responses := delete "default" (legendary_responses (__init__ "stub-model")) |}.

(** A profile with custom instructions, as a caller builds one. *)
Definition research_profile : TrainingProfile :=
  {| name := "Research Specialist";
     description := "Specialized in academic research and knowledge synthesis";
     skill_domains := {[ "problem_solving"; "domain_expertise";
                         "meta_cognition"; "communication" ]};
     skill_domains_slot := literal_slot;
     intensity := ADVANCED;
     focus := COMPREHENSIVE;
     custom_instructions := Some "Always cite sources and acknowledge limitations";
     enhanced_reasoning := true |}.

End Spec.

(** * Properties *)

(** ** Strings *)

Module PyFacts.
Import Py.

Lemma lower_app (a b : string) : lower (a +:+ b) = lower a +:+ lower b.
Proof. induction a as [|x a IH]; simpl; [done | by rewrite IH]. Qed.

Lemma lower_join (sep : string) (parts : list string) :
  lower (join sep parts) = join (lower sep) (map lower parts).
Proof.
  induction parts as [|x [|y rest] IH]; [done | done |].
  change (join sep (x :: y :: rest)) with (x +:+ sep +:+ join sep (y :: rest)).
  by rewrite !lower_app, IH.
Qed.

Lemma startswith_nil (p : string) : p ≠ "" → startswith p "" = false.
Proof. by destruct p. Qed.

Lemma contains_nil (sub : string) : sub ≠ "" → contains sub "" = false.
Proof. intros H. simpl. by rewrite startswith_nil. Qed.

Lemma contains_nonempty (sub s : string) :
  sub ≠ "" → contains sub s = true → bool_of_str s = true.
Proof.
  intros Hsub H. destruct s; [| done].
  by rewrite contains_nil in H.
Qed.

(** A match of [sub] cannot run over a character that [sub] lacks. *)
Lemma startswith_app_sep (sub a b : string) (c : ascii) :
  has_char c sub = false →
  startswith sub (a +:+ String c b) = startswith sub a.
Proof.
  revert a. induction sub as [|x sub IH]; intros a Hc; [by destruct a |].
  simpl in Hc. apply orb_false_iff in Hc as [Hx Hsub].
  destruct a as [|y a]; simpl.
  - by rewrite Hx.
  - by rewrite IH.
Qed.

Lemma contains_app_sep (sub a b : string) (c : ascii) :
  sub ≠ "" → has_char c sub = false →
  contains sub (a +:+ String c b) = contains sub a || contains sub b.
Proof.
  intros Hne Hc. induction a as [|y a IH].
  - rewrite contains_nil by done.
    change ("" +:+ String c b) with (String c b).
    change (contains sub (String c b))
      with (startswith sub (String c b) || contains sub b).
    change (String c b) with ("" +:+ String c b) at 1.
    by rewrite startswith_app_sep, startswith_nil.
  - change (contains sub (String y a +:+ String c b))
      with (startswith sub (String y a +:+ String c b)
            || contains sub (a +:+ String c b)).
    rewrite startswith_app_sep, IH by done.
    change (contains sub (String y a))
      with (startswith sub (String y a) || contains sub a).
    by rewrite orb_assoc.
Qed.

(** A substring without the separator occurs in a joined text exactly when
    it occurs in one of the parts. *)
Lemma contains_join (sub : string) (c : ascii) (parts : list string) :
  sub ≠ "" → has_char c sub = false →
  contains sub (join (String c "") parts) = existsb (contains sub) parts.
Proof.
  intros Hne Hc. induction parts as [|x [|y rest] IH].
  - by apply contains_nil.
  - simpl existsb. by rewrite orb_false_r.
  - change (join (String c "") (x :: y :: rest))
      with (x +:+ String c (join (String c "") (y :: rest))).
    rewrite contains_app_sep, IH by done. done.
Qed.

Lemma contains_app_r (sub a b : string) :
  contains sub b = true → contains sub (a +:+ b) = true.
Proof.
  intros H. induction a as [|y a IH]; [done |].
  change (contains sub (String y a +:+ b))
    with (startswith sub (String y (a +:+ b)) || contains sub (a +:+ b)).
  by rewrite IH, orb_true_r.
Qed.

Lemma startswith_app (p rest : string) : startswith p (p +:+ rest) = true.
Proof.
  induction p as [|x p IH]; [done |].
  simpl. by rewrite Ascii.eqb_refl, IH.
Qed.

Lemma contains_app_l (sub a b : string) :
  contains sub a = true → contains sub (a +:+ b) = true.
Proof.
  induction a as [|y a IH].
  - destruct sub; [by destruct b | done].
  - change (contains sub (String y a))
      with (startswith sub (String y a) || contains sub a).
    change (contains sub (String y a +:+ b))
      with (startswith sub (String y (a +:+ b)) || contains sub (a +:+ b)).
    intros [H | H]%orb_true_iff.
    + apply orb_true_iff. left.
      clear IH. revert y a H. induction sub as [|x sub IHs]; [done |].
      intros y a H. simpl in *. apply andb_true_iff in H as [-> H].
      destruct sub as [|x' sub]; [done |].
      destruct a as [|y' a]; [done |]. simpl. by apply IHs.
    + by rewrite IH, orb_true_r.
Qed.

End PyFacts.

(** ** The store-passing monad *)

Section MonadFacts.
Context {S A B : Type}.

Lemma bind_Ok (c : M S A) (k : A → M S B) (σ σ' : S) (a : A) :
  c σ = Ok (a, σ') → bind c k σ = k a σ'.
Proof. unfold bind. by intros ->. Qed.

Lemma bind_Raise (c : M S A) (k : A → M S B) (σ : S) (e : exn) :
  c σ = Raise e → bind c k σ = Raise e.
Proof. unfold bind. by intros ->. Qed.

Lemma bind_inv (c : M S A) (k : A → M S B) (σ σ2 : S) (b : B) :
  bind c k σ = Ok (b, σ2) → ∃ a σ1, c σ = Ok (a, σ1) ∧ k a σ1 = Ok (b, σ2).
Proof.
  unfold bind. destruct (c σ) as [[a σ1]|e]; [eauto | done].
Qed.

End MonadFacts.

(** ** The instruction assembler *)

Module AssemblerFacts.
Import Py SkillDomains MasterTraining Spec.

Lemma new_list_run L ags l :
  new_list l {| lists := L; agents := ags |} = Ok (length L, building L ags l).
Proof. done. Qed.

Lemma list_append_run L ags parts x :
  list_append (length L) x (building L ags parts)
  = Ok (tt, building L ags (parts ++ [x])).
Proof.
  unfold list_append, building. simpl.
  rewrite list_lookup_middle by done.
  do 3 f_equal.
  rewrite insert_app_r_alt by done. by rewrite Nat.sub_diag.
Qed.

Lemma list_read_building L ags parts :
  list_read (length L) (building L ags parts) = Ok (parts, building L ags parts).
Proof.
  unfold list_read, building. simpl. by rewrite list_lookup_middle.
Qed.

Lemma list_read_older L ags parts l ps :
  L !! l = Some ps →
  list_read l (building L ags parts) = Ok (ps, building L ags parts).
Proof.
  intros H. unfold list_read, building. simpl.
  by rewrite (lookup_app_l_Some _ _ _ _ H).
Qed.

Lemma for_each_append_run {X} (f : X → string) (xs : list X) L ags parts :
  for_each xs (λ x, list_append (length L) (f x)) (building L ags parts)
  = Ok (tt, building L ags (parts ++ map f xs)).
Proof.
  revert parts. induction xs as [|x xs IH]; intros parts; simpl.
  - by rewrite app_nil_r.
  - erewrite bind_Ok by apply list_append_run.
    rewrite IH. by rewrite <- app_assoc.
Qed.

Lemma for_each_modules_run (mods : list SkillDomain) L ags parts :
  for_each mods (λ skill_domain,
    list_append (length L)
      ("
## " +:+ SkillDomains.name skill_domain +:+ "
") ;;
    list_append (length L) (get_instructions skill_domain))
    (building L ags parts)
  = Ok (tt, building L ags (parts ++ concat (map module_block mods))).
Proof.
  revert parts. induction mods as [|m mods IH]; intros parts; simpl.
  - by rewrite app_nil_r.
  - erewrite bind_Ok; [| erewrite bind_Ok by apply list_append_run;
                         apply list_append_run ].
    rewrite IH. by rewrite <- !app_assoc.
Qed.

(** The assembler returns the joined blocks and leaves the list it built
    as the only change to the store. *)
Lemma generate_instructions_run self profile L ags ps :
  L !! legendary_principles self = Some ps →
  generate_instructions self profile {| lists := L; agents := ags |}
  = Ok (join "
" (blocks (base_instructions self) ps profile),
        building L ags (blocks (base_instructions self) ps profile)).
Proof.
  intros Hps. unfold generate_instructions.
  erewrite bind_Ok by apply new_list_run.
  erewrite bind_Ok with (σ' := building L ags
    ([base_instructions self] ++ intensity_block profile)).
  2:{ unfold intensity_block.
      destruct (intensity profile); try apply list_append_run;
        by rewrite app_nil_r. }
  erewrite bind_Ok with (σ' := building L ags
    (([base_instructions self] ++ intensity_block profile)
       ++ focus_block profile)).
  2:{ unfold focus_block.
      destruct (focus profile); try apply list_append_run;
        by rewrite app_nil_r. }
  erewrite bind_Ok by apply for_each_modules_run.
  erewrite bind_Ok by apply list_append_run.
  erewrite bind_Ok by apply list_append_run.
  erewrite bind_Ok by (by apply list_read_older).
  erewrite bind_Ok by apply for_each_append_run.
  erewrite bind_Ok with (σ' := building L ags
    (blocks (base_instructions self) ps profile)).
  2:{ unfold blocks, blocks_with, principles_block, custom_block, bool_of_optstr.
      destruct (custom_instructions profile) as [text|]; simpl default.
      - destruct (bool_of_str text).
        + rewrite list_append_run. do 3 f_equal.
          by rewrite <- !app_assoc.
        + unfold ret. do 3 f_equal. rewrite <- !app_assoc.
          by rewrite !app_nil_r.
      - unfold ret. do 3 f_equal. rewrite <- !app_assoc.
        by rewrite !app_nil_r. }
  erewrite bind_Ok by apply list_read_building.
  done.
Qed.

Lemma LegendaryTraining_new_run L ags :
  LegendaryTraining_new {| lists := L; agents := ags |}
  = Ok ({| base_instructions := default_base_instructions;
           legendary_principles := length L |},
        building L ags default_legendary_principles).
Proof. done. Qed.

(** [assemble] returns [instruction_text] on every store. *)
Lemma assemble_run profile L ags :
  assemble profile {| lists := L; agents := ags |}
  = Ok (instruction_text profile,
        building (L ++ [default_legendary_principles]) ags
          (blocks default_base_instructions default_legendary_principles profile)).
Proof.
  unfold assemble.
  erewrite bind_Ok by apply LegendaryTraining_new_run.
  unfold building at 1.
  rewrite generate_instructions_run with (ps := default_legendary_principles).
  - done.
  - simpl. by rewrite list_lookup_middle.
Qed.

End AssemblerFacts.

(** ** Training profiles and the training system *)

Module TrainingProperties.
Import Py PyFacts SkillDomains MasterTraining Spec AssemblerFacts.

Lemma length_omap_le {X Y} (f : X → option Y) (l : list X) :
  length (omap f l) ≤ length l.
Proof.
  induction l as [|x l IH]; csimpl; [done |].
  destruct (f x); csimpl; lia.
Qed.

(** The registry holds exactly the seven skill domains. *)
Lemma SKILL_DOMAINS_values domain skill :
  SKILL_DOMAINS !! domain = Some skill →
  skill ∈ registered_modules.
Proof.
  intros H%elem_of_list_to_map_2. unfold registered_modules.
  repeat (apply elem_of_cons in H as [[= _ <-] | H];
          [ set_solver |]).
  by apply elem_of_nil in H.
Qed.

(** Iterating a set visits its members, each of them once. *)
Lemma iter_set_Permutation slot members :
  iter_set slot members ≡ₚ elements members.
Proof. apply merge_sort_Permutation. Qed.

(** Whatever the order of the iteration, the skill domains resolved are
    those of the members. *)
Lemma get_skill_objects_elements profile :
  get_skill_objects profile
  ≡ₚ omap (λ domain, SKILL_DOMAINS !! domain) (elements (skill_domains profile)).
Proof.
  unfold get_skill_objects, iter_skill_domains.
  by rewrite iter_set_Permutation.
Qed.

(** C9. Unknown skill-module names are dropped without an error:
    [get_skill_objects] returns exactly the registry entries of the names
    the profile holds, so it is never longer than the set has names, and a
    set of one registered and one unregistered name resolves to one
    module. *)
Theorem get_skill_objects_drops_unknown (profile : TrainingProfile) :
  (∀ skill, skill ∈ get_skill_objects profile
            ↔ ∃ domain, domain ∈ skill_domains profile
                        ∧ SKILL_DOMAINS !! domain = Some skill)
  ∧ length (get_skill_objects profile) ≤ size (skill_domains profile)
  ∧ (∀ valid invalid,
       is_Some (SKILL_DOMAINS !! valid) →
       SKILL_DOMAINS !! invalid = None →
       skill_domains profile = {[ valid; invalid ]} →
       length (get_skill_objects profile) = 1).
Proof.
  pose proof (get_skill_objects_elements profile) as Hperm. split_and!.
  - intros skill. rewrite Hperm, list_elem_of_omap.
    by setoid_rewrite elem_of_elements.
  - rewrite Hperm. apply length_omap_le.
  - intros valid invalid [skill Hvalid] Hinvalid Hset.
    rewrite Hperm, Hset.
    assert (valid ∉ ({[ invalid ]} : gset string)) as Hfresh.
    { rewrite elem_of_singleton. intros ->. congruence. }
    rewrite (Permutation_length
               (omap_Permutation _ _ _ (elements_union_singleton _ _ Hfresh))).
    rewrite elements_singleton. simpl. by rewrite Hvalid, Hinvalid.
Qed.

Lemma get_skill_objects_drops_unknown_witness :
  length (get_skill_objects mixed_profile) = 1.
Proof.
  apply (proj2 (proj2 (get_skill_objects_drops_unknown mixed_profile))
           "problem_solving" "invalid_domain").
  - by exists ProblemSolving.
  - reflexivity.
  - reflexivity.
Defined.

Lemma dict_get_None {X} (key : string) (d : list (string * X)) :
  key ∉ map fst d → dict_get key d = None.
Proof.
  induction d as [|[k v] d IH]; simpl; [done |].
  intros H. apply not_elem_of_cons in H as [Hk Hd].
  destruct (String.eqb_spec key k); [done | by apply IH].
Qed.

(** C6. Looking up a name that is not one of the six canonical names raises
    a [ValueError] whose message lists the six names; each canonical name
    returns its profile of the registry, whose name, description and skill
    set are not empty. *)
Theorem get_training_profile_lookup :
  (∀ profile_name, profile_name ∉ canonical_names →
     get_training_profile profile_name
     = Raise (ValueError (unknown_profile_message profile_name))
     ∧ Forall (λ known, contains known (unknown_profile_message profile_name) = true)
         canonical_names)
  ∧ Forall2 (λ known entry,
       entry.1 = known
       ∧ get_training_profile known = Ok entry.2
       ∧ name entry.2 ≠ "" ∧ description entry.2 ≠ ""
       ∧ skill_domains entry.2 ≠ ∅)
      canonical_names profiles.
Proof.
  split.
  - intros profile_name Hunknown. split.
    + unfold get_training_profile. by rewrite dict_get_None.
    + unfold unknown_profile_message.
      repeat constructor; apply contains_app_r, contains_app_r; reflexivity.
  - unfold canonical_names, profiles.
    repeat first [apply Forall2_cons | apply Forall2_nil | split];
      lazymatch goal with
      | |- _ = _ => reflexivity
      | |- skill_domains _ ≠ _ =>
          intros H; apply (f_equal size) in H; vm_compute in H; discriminate H
      | |- _ ≠ _ => done
      end.
Qed.

Lemma get_training_profile_lookup_witness :
  get_training_profile "not_a_real_profile"
  = Raise (ValueError (unknown_profile_message "not_a_real_profile"))
  ∧ Forall (λ known,
       contains known (unknown_profile_message "not_a_real_profile") = true)
      canonical_names.
Proof.
  apply (proj1 get_training_profile_lookup "not_a_real_profile").
  unfold canonical_names.
  repeat (apply not_elem_of_cons; split; [discriminate |]).
  apply not_elem_of_nil.
Defined.

(** Profiles that are equal as values have the same members, and so the
    same skill domains up to their order. *)
Lemma TrainingProfile_eq_fields (profile other : TrainingProfile) :
  TrainingProfile_eq profile other = true →
  skill_domains profile = skill_domains other
  ∧ intensity profile = intensity other
  ∧ focus profile = focus other
  ∧ custom_instructions profile = custom_instructions other.
Proof.
  unfold TrainingProfile_eq. rewrite !andb_true_iff, !bool_decide_eq_true.
  tauto.
Qed.

Lemma blocks_with_eq base principles profile other modules :
  TrainingProfile_eq profile other = true →
  blocks_with base principles other modules
  = blocks_with base principles profile modules.
Proof.
  intros (_ & Hintensity & Hfocus & Hcustom)%TrainingProfile_eq_fields.
  unfold blocks_with, intensity_block, focus_block, custom_block.
  by rewrite Hintensity, Hfocus, Hcustom.
Qed.

(** C8, as the code has it. The assembler is deterministic for a profile
    object and has no side effect: called twice in a row on the same
    training system and profile it returns the same string both times,
    and every list object and every agent that existed before the calls
    is left as it was; two calls that each build their own training system
    return the same string as well.  A profile that is equal as a value
    gives the same blocks with the skill domains in the order its own set
    iterates them, hence the same string when the two sets iterate
    alike. *)
Theorem generate_instructions_deterministic
    (self : LegendaryTraining) (profile : TrainingProfile) (σ : heap)
    (principles : list string) :
  lists σ !! legendary_principles self = Some principles →
  ∃ text σ1 σ2,
    generate_instructions self profile σ = Ok (text, σ1)
    ∧ generate_instructions self profile σ1 = Ok (text, σ2)
    ∧ agents σ1 = agents σ ∧ agents σ2 = agents σ
    ∧ (∀ l, l < length (lists σ) →
            lists σ1 !! l = lists σ !! l ∧ lists σ2 !! l = lists σ !! l)
    ∧ (∀ τ, ∃ fresh τ1 τ2,
         assemble profile τ = Ok (fresh, τ1)
         ∧ assemble profile τ1 = Ok (fresh, τ2))
    ∧ ∀ other, TrainingProfile_eq profile other = true →
        ∃ text' σ' modules,
          generate_instructions self other σ = Ok (text', σ')
          ∧ modules ≡ₚ get_skill_objects profile
          ∧ text' = join "
" (blocks_with (base_instructions self) principles profile modules)
          ∧ (iter_skill_domains other = iter_skill_domains profile →
             text' = text).
Proof.
  destruct σ as [L ags]. simpl. intros Hps.
  eexists _, _, _. split_and!.
  - by apply generate_instructions_run.
  - unfold building. apply generate_instructions_run.
    by apply lookup_app_l_Some.
  - done.
  - done.
  - unfold building. simpl. intros l Hl. split.
    + by rewrite lookup_app_l.
    + rewrite !lookup_app_l; [done | done |].
      rewrite length_app. lia.
  - intros [L' ags']. eexists _, _, _. split; apply assemble_run.
  - intros other Heq. eexists _, _, (get_skill_objects other). split_and!.
    + by apply generate_instructions_run.
    + rewrite !get_skill_objects_elements.
      by destruct (TrainingProfile_eq_fields _ _ Heq) as [-> _].
    + unfold blocks. by rewrite (blocks_with_eq _ _ _ _ _ Heq).
    + intros Hiter. unfold blocks, get_skill_objects.
      by rewrite (blocks_with_eq _ _ _ _ _ Heq), Hiter.
Qed.

Lemma generate_instructions_deterministic_witness :
  ∃ text σ1 σ2,
    generate_instructions
      {| base_instructions := default_base_instructions;
         legendary_principles := 0 |} communication_first one_agent_store
    = Ok (text, σ1)
    ∧ generate_instructions
        {| base_instructions := default_base_instructions;
           legendary_principles := 0 |} communication_first σ1
      = Ok (text, σ2)
    ∧ agents σ1 = agents one_agent_store ∧ agents σ2 = agents one_agent_store
    ∧ (∀ l, l < length (lists one_agent_store) →
            lists σ1 !! l = lists one_agent_store !! l
            ∧ lists σ2 !! l = lists one_agent_store !! l).
Proof.
  destruct (generate_instructions_deterministic
              {| base_instructions := default_base_instructions;
                 legendary_principles := 0 |}
              communication_first one_agent_store
              default_legendary_principles eq_refl)
    as (text & σ1 & σ2 & H1 & H2 & Hags1 & Hags2 & Hlists & _).
  exists text, σ1, σ2. split_and!; assumption.
Defined.

(** C8, as the specification states it, fails: the communication_expert
    profile held by two sets of the same members is one value, the two
    objects are equal, and the strings assembled for them differ: the
    blocks of the skill domains come in another order. *)
Lemma equal_profiles_different_instructions :
  TrainingProfile_eq communication_first communication_last = true
  ∧ skill_domains communication_first = skill_domains communication_last
  ∧ ∃ text text' σ σ',
      assemble communication_first empty_store = Ok (text, σ)
      ∧ assemble communication_last empty_store = Ok (text', σ')
      ∧ text ≠ text'.
Proof.
  split; [by apply (bool_decide_unpack _) |]. split; [done |].
  eexists _, _, _, _. split; [apply assemble_run |].
  split; [apply assemble_run |].
  intros H.
  apply (f_equal (String.eqb (instruction_text communication_first))) in H.
  rewrite String.eqb_refl in H. vm_compute in H. discriminate H.
Qed.

Section Environment.
Variable reasoning_importable : bool.

Lemma create_enhanced_model_settings_self (a b : LegendaryTraining) profile :
  create_enhanced_model_settings reasoning_importable a profile
  = create_enhanced_model_settings reasoning_importable b profile.
Proof. done. Qed.

(** The store [apply_legendary_training] ends in. *)
Lemma apply_legendary_training_run agent profile L ags ag training_system :
  ags !! agent = Some ag →
  apply_legendary_training reasoning_importable agent profile
    {| lists := L; agents := ags |}
  = Ok (agent,
        {| lists := (L ++ [default_legendary_principles])
                    ++ [blocks default_base_instructions
                          default_legendary_principles profile];
           agents := <[agent := trained reasoning_importable training_system profile
                                  (instruction_text profile) ag]> ags |}).
Proof.
  intros Hag. unfold apply_legendary_training.
  erewrite bind_Ok by apply LegendaryTraining_new_run.
  unfold building at 1.
  erewrite bind_Ok.
  2:{ apply generate_instructions_run with (ps := default_legendary_principles).
      simpl. by rewrite list_lookup_middle. }
  unfold building. simpl base_instructions.
  fold (instruction_text profile).
  erewrite bind_Ok by (unfold agent_read; simpl; by rewrite Hag).
  erewrite bind_Ok by (unfold set_instructions; simpl; by rewrite Hag).
  erewrite bind_Ok by (unfold agent_read; simpl; by rewrite lookup_insert_eq).
  simpl Agent.model_settings.
  rewrite (create_enhanced_model_settings_self _ training_system).
  unfold trained, bool_of_optstr.
  destruct (create_enhanced_model_settings _ training_system profile)
    as [settings|];
    destruct (Agent.model_settings ag) as [own|];
    destruct (Agent.instructions ag) as [previous|]; simpl;
    unfold bind, ret, set_model_settings; simpl;
    rewrite ?lookup_insert_eq, ?insert_insert_eq; reflexivity.
Qed.

(** C5. Applying a profile to an existing agent returns the reference it
    was given; the agent behind it now holds its previous instructions (if
    it had any) followed by a blank line and the assembled instructions,
    its settings are the enhanced settings of the profile if it had none
    and its own otherwise, its other fields are unchanged, and so are all
    other agents and all lists that existed before. *)
Theorem apply_legendary_training_frame
    (agent : loc) (profile : TrainingProfile) (σ : heap) (ag : Agent.t)
    (training_system : LegendaryTraining) :
  agents σ !! agent = Some ag →
  ∃ text σa σ' ag',
    assemble profile σ = Ok (text, σa)
    ∧ apply_legendary_training reasoning_importable agent profile σ
      = Ok (agent, σ')
    ∧ agents σ' !! agent = Some ag'
    ∧ Agent.instructions ag'
      = Some (match Agent.instructions ag with
              | Some previous =>
                  if bool_of_str previous
                  then previous +:+ "

" +:+ text
                  else text
              | None => text
              end)
    ∧ Agent.model_settings ag'
      = match Agent.model_settings ag with
        | Some settings => Some settings
        | None =>
            create_enhanced_model_settings reasoning_importable
              training_system profile
        end
    ∧ Agent.name ag' = Agent.name ag
    ∧ Agent.model ag' = Agent.model ag
    ∧ Agent.tools ag' = Agent.tools ag
    ∧ Agent.handoffs ag' = Agent.handoffs ag
    ∧ (∀ other, other ≠ agent → agents σ' !! other = agents σ !! other)
    ∧ (∀ l, l < length (lists σ) → lists σ' !! l = lists σ !! l).
Proof.
  destruct σ as [L ags]. simpl. intros Hag.
  exists (instruction_text profile). eexists _, _, _. split_and!.
  - apply assemble_run.
  - apply apply_legendary_training_run with (training_system := training_system).
    exact Hag.
  - simpl. apply lookup_insert_eq.
  - done.
  - done.
  - done.
  - done.
  - done.
  - done.
  - simpl. intros other Hother. by rewrite lookup_insert_ne.
  - simpl. intros l Hl. rewrite !lookup_app_l; [done | done |].
    rewrite length_app. lia.
Qed.

End Environment.

Lemma apply_legendary_training_frame_witness :
  ∃ text σa σ' ag',
    assemble analytical_master one_agent_store = Ok (text, σa)
    ∧ apply_legendary_training true 7 analytical_master one_agent_store
      = Ok (7, σ')
    ∧ agents σ' !! 7 = Some ag'
    ∧ Agent.instructions ag' = Some ("You are helpful." +:+ "

" +:+ text)
    ∧ Agent.model_settings ag'
      = Some {| ModelSettings.reasoning := Some {| Reasoning.effort := "high" |};
                ModelSettings.temperature := None;
                ModelSettings.max_tokens := None |}
    ∧ Agent.name ag' = "Basic Agent"
    ∧ Agent.model ag' = Some "gpt-4"
    ∧ Agent.tools ag' = []
    ∧ Agent.handoffs ag' = []
    ∧ (∀ other, other ≠ 7 →
                agents σ' !! other = agents one_agent_store !! other)
    ∧ (∀ l, l < length (lists one_agent_store) →
            lists σ' !! l = lists one_agent_store !! l).
Proof.
  apply (apply_legendary_training_frame true 7 analytical_master one_agent_store
           basic_agent {| base_instructions := default_base_instructions;
                          legendary_principles := 0 |}).
  reflexivity.
Defined.

End TrainingProperties.

(** ** The response engine *)

Module StubProperties.
Import Py PyFacts SkillDomains MasterTraining Stub Spec.

Lemma init_default name :
  getitem (legendary_responses (__init__ name)) "default" = Ok default_response.
Proof. reflexivity. Qed.

Lemma init_rule_response name (r : rule) :
  rule_response (__init__ name) r = Ok (canned r).
Proof. by destruct r. Qed.

Lemma select_empty : select (lower "") = DefaultRule.
Proof. reflexivity. Qed.

(** The chain of tests of [_generate_response] is the priority order. *)
Lemma generate_response_select self sys input_text :
  _generate_response self sys input_text
  = rule_response self (select (lower (default "" sys))).
Proof.
  unfold _generate_response, bool_of_optstr.
  destruct sys as [s|]; [| done].
  destruct (bool_of_str s) eqn:Hs.
  - change (default "" (Some s)) with s. cbn [negb].
    generalize (lower s). intros lowered.
    unfold select, priority. cbn [List.find rule_matches].
    repeat match goal with
           | |- context [if ?b then _ else _] => destruct b
           end; reflexivity.
  - destruct s; [done | discriminate].
Qed.

Lemma select_first_match lowered i r :
  priority !! i = Some r →
  rule_matches r lowered = true →
  (∀ j r', j < i → priority !! j = Some r' → rule_matches r' lowered = false) →
  select lowered = r.
Proof.
  intros Hi Hr Hearlier. unfold select, priority in *. cbn [List.find].
  do 6 (destruct i as [|i];
        [ injection Hi as <-; by rewrite Hr
        | rewrite (Hearlier 0 _ ltac:(lia) eq_refl);
          specialize (λ j r' H, Hearlier (S j) r' (proj1 (Nat.succ_lt_mono _ _) H));
          cbn [lookup list_lookup] in Hi, Hearlier ]).
  done.
Qed.

(** C3. An instruction string whose lower-cased form contains both
    "legendary sage" and "communication expert" gets the legendary_sage
    response; in general the response is the one of the earliest rule of
    the priority order that matches. *)
Theorem classification_priority
    (self : StubModel) (instructions input_text : string) :
  (contains "legendary sage" (lower instructions) = true →
   contains "communication expert" (lower instructions) = true →
   _generate_response self (Some instructions) input_text
   = getitem (legendary_responses self) "legendary_sage"
   ∧ ∀ name, _generate_response (__init__ name) (Some instructions) input_text
             = Ok legendary_sage_response)
  ∧ (∀ i r,
       priority !! i = Some r →
       rule_matches r (lower instructions) = true →
       (∀ j r', j < i → priority !! j = Some r' →
                rule_matches r' (lower instructions) = false) →
       _generate_response self (Some instructions) input_text
       = rule_response self r).
Proof.
  split.
  - intros Hsage _.
    assert (select (lower instructions) = SageRule) as Hsel.
    { unfold select, priority. cbn [List.find rule_matches]. by rewrite Hsage. }
    split; [| intros name]; rewrite generate_response_select;
      change (default "" (Some instructions)) with instructions;
      by rewrite Hsel.
  - intros i r Hi Hr Hearlier. rewrite generate_response_select.
    change (default "" (Some instructions)) with instructions.
    by rewrite (select_first_match _ i r).
Qed.

Lemma classification_priority_witness :
  (_generate_response (__init__ "stub-model")
     (Some "You are a Legendary Sage and a Communication Expert") "hello"
   = getitem (legendary_responses (__init__ "stub-model")) "legendary_sage"
   ∧ ∀ name, _generate_response (__init__ name)
               (Some "You are a Legendary Sage and a Communication Expert") "hello"
             = Ok legendary_sage_response)
  ∧ _generate_response (__init__ "stub-model")
      (Some "An exceptional analytical mind, a master communicator") "hello"
    = rule_response (__init__ "stub-model") AnalyticalRule.
Proof.
  split.
  - apply (proj1 (classification_priority (__init__ "stub-model")
                    "You are a Legendary Sage and a Communication Expert" "hello"));
      reflexivity.
  - apply (proj2 (classification_priority (__init__ "stub-model")
                    "An exceptional analytical mind, a master communicator" "hello")
             1 AnalyticalRule).
    + reflexivity.
    + reflexivity.
    + intros [|j] r' Hj Hr'; [| lia]. injection Hr' as <-. reflexivity.
Defined.

(** The rules other than the default rule. *)
Lemma select_unmatched lowered :
  Forall (λ r, rule_matches r lowered = false)
    [SageRule; AnalyticalRule; CommunicationRule; InnovationRule; GenericRule] →
  select lowered = DefaultRule.
Proof.
  intros H. unfold select, priority. cbn [List.find].
  repeat (apply Forall_cons in H as [-> H]). done.
Qed.

Section Engine.
Variable uuid_source : nat → string.

(** [get_response] returns whenever the classification does. *)
Lemma get_response_run self sys input σ response_text :
  _generate_response self sys (input_text_of input) = Ok response_text →
  ∃ response,
    get_response uuid_source self sys input σ = Ok (response, S (S σ))
    ∧ ModelResponse.output_text response = response_text
    ∧ ModelResponse.usage response
      = {| Usage.requests := 1;
           Usage.input_tokens := length (split (input_text_of input));
           Usage.output_tokens := length (split response_text);
           Usage.total_tokens :=
             length (split (input_text_of input)) + length (split response_text) |}.
Proof.
  intros H. unfold get_response, bind, lift, uuid4, ret. rewrite H.
  eexists. split; [reflexivity |]. done.
Qed.

Lemma get_response_inv self sys input σ response σ' :
  get_response uuid_source self sys input σ = Ok (response, σ') →
  _generate_response self sys (input_text_of input)
  = Ok (ModelResponse.output_text response).
Proof.
  intros H.
  destruct (_generate_response self sys (input_text_of input))
    as [response_text|e] eqn:Hgen.
  - destruct (get_response_run _ _ _ σ _ Hgen) as (r & Hr & Htext & _).
    rewrite Hr in H. injection H as <- _. by rewrite Htext.
  - unfold get_response, bind, lift in H. by rewrite Hgen in H.
Qed.

(** C4. The response engine never raises: on every system instructions and
    input the classification and [get_response] return; absent or empty
    instructions give the default response, and so do instructions that
    match none of the five matching rules. *)
Theorem default_fallback
    (name : string) (sys : option string) (input : Input) (σ : nat) :
  (∃ text, ∀ input_text,
     _generate_response (__init__ name) sys input_text = Ok text)
  ∧ (∃ response σ',
       get_response uuid_source (__init__ name) sys input σ = Ok (response, σ'))
  ∧ (∀ input_text,
       _generate_response (__init__ name) None input_text = Ok default_response
       ∧ _generate_response (__init__ name) (Some "") input_text
         = Ok default_response)
  ∧ (∀ instructions input_text,
       Forall (λ r, rule_matches r (lower instructions) = false)
         [SageRule; AnalyticalRule; CommunicationRule; InnovationRule;
          GenericRule] →
       _generate_response (__init__ name) (Some instructions) input_text
       = Ok default_response).
Proof.
  split_and!.
  - eexists. intros input_text.
    rewrite generate_response_select. apply init_rule_response.
  - destruct (get_response_run (__init__ name) sys input σ _
                (eq_trans (generate_response_select _ _ _)
                          (init_rule_response _ _))) as (r & Hr & _).
    eauto.
  - intros input_text. split; reflexivity.
  - intros instructions input_text H.
    rewrite generate_response_select.
    change (default "" (Some instructions)) with instructions.
    rewrite (select_unmatched _ H). apply init_rule_response.
Qed.

(** [split] returns as many words as the text has tokens. *)
Lemma length_split_from (skip : nat) (word s : string) :
  length (split_from skip word s)
  = (if String.eqb word "" then 0 else 1)
    + token_count_from skip (String.eqb word "") s.
Proof.
  revert skip word. induction s as [|c t IH]; intros skip word.
  - cbn [split_from token_count_from]. by destruct (String.eqb word "").
  - cbn [split_from token_count_from]. destruct skip as [|k]; [| apply IH].
    destruct (space_width (String c t)) as [|k].
    + rewrite IH.
      assert (String.eqb (word +:+ String c "") "" = false) as ->
        by (by destruct word).
      by destruct (String.eqb word "").
    + destruct (String.eqb word ""); cbn [length]; by rewrite IH.
Qed.

Lemma length_split (s : string) : length (split s) = token_count s.
Proof. apply (length_split_from 0 ""). Qed.

(** The text [get_response] extracts is the user input, lower-cased. *)
Lemma input_text_of_raw (input : Input) :
  input_text_of input = lower (raw_input_text input).
Proof. by destruct input. Qed.

(** C7. The usage of a response counts the white-space-separated tokens of
    the lower-cased user input (the string, or the string contents of the
    items joined by single spaces) and of the selected response text,
    totals the two and records one request; for "one two three" and a
    response of five words the counts are 3, 5 and 8. *)
Theorem token_accounting
    (self : StubModel) (sys : option string) (input : Input) (σ σ' : nat)
    (response : ModelResponse.t) :
  get_response uuid_source self sys input σ = Ok (response, σ') →
  let usage := ModelResponse.usage response in
  (∀ input_text,
     _generate_response self sys input_text
     = Ok (ModelResponse.output_text response))
  ∧ Usage.input_tokens usage = token_count (lower (raw_input_text input))
  ∧ (∀ s, input = InputStr s →
          Usage.input_tokens usage = length (split (lower s)))
  ∧ (∀ items contents,
       input = InputItems items →
       contents = omap (λ item, match item with
                                | ItemWithContent c => Some c
                                | ItemWithoutContent => None
                                end) items →
       Usage.input_tokens usage = length (split (lower (join " " contents))))
  ∧ Usage.output_tokens usage
    = token_count (ModelResponse.output_text response)
  ∧ Usage.output_tokens usage
    = length (split (ModelResponse.output_text response))
  ∧ Usage.total_tokens usage
    = Usage.input_tokens usage + Usage.output_tokens usage
  ∧ Usage.requests usage = 1
  ∧ (input = InputStr "one two three" →
     token_count (ModelResponse.output_text response) = 5 →
     Usage.input_tokens usage = 3
     ∧ Usage.output_tokens usage = 5
     ∧ Usage.total_tokens usage = 8).
Proof.
  intros H usage. pose proof (get_response_inv _ _ _ _ _ _ H) as Hgen.
  destruct (get_response_run self sys input σ _ Hgen) as (r & Hr & Htext & Husage).
  rewrite Hr in H. injection H as -> _.
  subst usage. rewrite Husage. cbn [Usage.input_tokens Usage.output_tokens
    Usage.total_tokens Usage.requests].
  rewrite input_text_of_raw, !length_split.
  split_and!; try done.
  - intros s ->. by rewrite length_split.
  - intros items contents -> ->. by rewrite length_split.
  - intros -> Hfive. by rewrite Hfive.
Qed.

End Engine.

Lemma default_fallback_witness :
  _generate_response (__init__ "stub-model") (Some "random instructions") "hello"
  = Ok default_response.
Proof.
  apply (proj2 (proj2 (proj2 (default_fallback constant_uuids "stub-model"
                                 None (InputStr "hello") 0)))
           "random instructions" "hello").
  repeat constructor.
Defined.

Lemma token_accounting_witness :
  get_response constant_uuids five_word_model None (InputStr "one two three") 0
  = Ok (five_word_response, 2)
  ∧ Usage.input_tokens (ModelResponse.usage five_word_response) = 3
  ∧ Usage.output_tokens (ModelResponse.usage five_word_response) = 5
  ∧ Usage.total_tokens (ModelResponse.usage five_word_response) = 8.
Proof.
  assert (get_response constant_uuids five_word_model None
            (InputStr "one two three") 0 = Ok (five_word_response, 2)) as Hrun
    by (vm_compute; reflexivity).
  split; [exact Hrun |].
  apply (token_accounting constant_uuids five_word_model None
           (InputStr "one two three") 0 2 five_word_response Hrun).
  - reflexivity.
  - vm_compute. reflexivity.
Defined.

Lemma join_cons sep x (l : list string) :
  l ≠ [] → join sep (x :: l) = x +:+ sep +:+ join sep l.
Proof. by destruct l. Qed.

(** *** Streaming *)

Section Streaming.
Variable uuid_source : nat → string.

(** A streaming call passes on what [get_response] raises and, once
    [get_response] has returned, raises at [response.text]. *)
Lemma stream_response_run self sys input σ :
  stream_response uuid_source self sys input σ
  = match get_response uuid_source self sys input σ with
    | Ok _ => Raise (AttributeError "text")
    | Raise e => Raise e
    end.
Proof.
  unfold stream_response, bind.
  by destruct (get_response uuid_source self sys input σ) as [[response σ']|e].
Qed.

(** C2. The streaming variant yields no event at all.  Whatever the model,
    the instructions and the input, the call does not run to its end: when
    [get_response] returns, reading [response.text] raises
    [AttributeError] before the first event, and otherwise the call raises
    what [get_response] raised.  On a model as the constructor builds it,
    it is always the [AttributeError].  The specification asks for the
    events of an N-word response, N + 1 of them, so for one at least. *)
Theorem stream_response_raises
    (self : StubModel) (sys : option string) (input : Input) (σ : nat) :
  (∀ events σ',
     stream_response uuid_source self sys input σ ≠ Ok (events, σ'))
  ∧ (∀ response σ',
       get_response uuid_source self sys input σ = Ok (response, σ') →
       stream_response uuid_source self sys input σ
       = Raise (AttributeError "text"))
  ∧ (∀ e, get_response uuid_source self sys input σ = Raise e →
          stream_response uuid_source self sys input σ = Raise e)
  ∧ (∀ name,
       stream_response uuid_source (__init__ name) sys input σ
       = Raise (AttributeError "text"))
  ∧ (∀ response events,
       streaming_as_specified response events →
       length events = S (length (split (ModelResponse.output_text response)))
       ∧ last events = Some (final_event response)).
Proof.
  split_and!.
  - intros events σ'. rewrite stream_response_run.
    by destruct (get_response uuid_source self sys input σ) as [[response σ1]|e].
  - intros response σ' H. by rewrite stream_response_run, H.
  - intros e H. by rewrite stream_response_run, H.
  - intros name. rewrite stream_response_run.
    destruct (get_response_run uuid_source (__init__ name) sys input σ _
                (eq_trans (generate_response_select _ _ _)
                          (init_rule_response _ _))) as (response & Hr & _).
    by rewrite Hr.
  - intros response events (Hlen & _ & Hfinal). split; [exact Hlen |].
    rewrite last_lookup, Hlen. exact Hfinal.
Qed.

End Streaming.

Lemma stream_response_raises_witness :
  (∃ response,
     get_response constant_uuids (__init__ "stub-model")
       (Some "Test instructions") (InputStr "Test question") 0
     = Ok (response, 2)
     ∧ ModelResponse.output_text response = default_response)
  ∧ stream_response constant_uuids (__init__ "stub-model")
      (Some "Test instructions") (InputStr "Test question") 0
    = Raise (AttributeError "text").
Proof.
  split.
  - eexists. split; [vm_compute; reflexivity | reflexivity].
  - apply (stream_response_raises constant_uuids (__init__ "stub-model")
             (Some "Test instructions") (InputStr "Test question") 0).
Defined.

End StubProperties.

(** ** From assembled instructions to the selected response *)

Module Linkage.
Import Py PyFacts SkillDomains MasterTraining Stub Spec.
Import AssemblerFacts TrainingProperties StubProperties.

(** Substrings absent from every part are absent from the joined text. *)
Lemma free_of_join (signatures parts : list string) :
  forallb one_line signatures = true →
  Forall (λ part, free_of signatures part = true) parts →
  Forall (λ signature, contains signature (lower (join "
" parts)) = false) signatures.
Proof.
  intros Hlines Hparts.
  rewrite lower_join. change (lower "
") with (String "010"%char "").
  apply Forall_forall. intros signature Hin.
  rewrite forallb_forall in Hlines.
  specialize (Hlines signature (proj1 (list_elem_of_In _ _) Hin)).
  apply andb_true_iff in Hlines as [Hne Hnl].
  rewrite contains_join.
  - induction Hparts as [|part parts Hpart _ IH]; [done |].
    cbn [map existsb]. rewrite IH, orb_false_r.
    unfold free_of in Hpart. rewrite forallb_forall in Hpart.
    specialize (Hpart signature (proj1 (list_elem_of_In _ _) Hin)).
    by apply negb_true_iff in Hpart.
  - intros ->. discriminate Hne.
  - by apply negb_true_iff in Hnl.
Qed.

(** A substring present in a part is present in the joined text. *)
Lemma contains_join_part (signature part : string) (parts : list string) :
  one_line signature = true →
  part ∈ parts →
  contains signature (lower part) = true →
  contains signature (lower (join "
" parts)) = true.
Proof.
  intros [Hne Hnl]%andb_true_iff Hin Hpart.
  rewrite lower_join. change (lower "
") with (String "010"%char "").
  rewrite contains_join.
  - apply existsb_exists. exists (lower part). split; [| done].
    apply list_elem_of_In, list_elem_of_fmap. eauto.
  - intros ->. discriminate Hne.
  - by apply negb_true_iff in Hnl.
Qed.

(** Without custom instructions, the blocks are free of the substrings that
    the fixed parts and the blocks of the modules are free of. *)
Lemma blocks_free_of signatures profile (modules : list SkillDomain) :
  custom_instructions profile = None →
  forallb (free_of signatures) fixed_parts = true →
  Forall (λ module, forallb (free_of signatures) (module_block module) = true)
    modules →
  Forall (λ part, free_of signatures part = true)
    (blocks_with default_base_instructions default_legendary_principles
       profile modules).
Proof.
  intros Hcustom Hfixed Hmodules.
  rewrite forallb_forall in Hfixed.
  assert (∀ part, In part fixed_parts → free_of signatures part = true)
    as Hpart by done.
  unfold blocks_with, custom_block. rewrite Hcustom.
  apply Forall_app_2; [| apply Forall_app_2; [| apply Forall_app_2;
    [| apply Forall_app_2; [| apply Forall_app_2]]]].
  - apply Forall_singleton, Hpart. by left.
  - unfold intensity_block.
    destruct (intensity profile); repeat constructor;
      apply Hpart; cbn; tauto.
  - unfold focus_block.
    destruct (focus profile); repeat constructor;
      apply Hpart; cbn; tauto.
  - induction Hmodules as [|module rest Hmodule _ IH]; [constructor |].
    cbn [map concat]. apply Forall_app_2; [| exact IH].
    rewrite forallb_forall in Hmodule.
    apply Forall_forall. intros part Hin. by apply Hmodule, list_elem_of_In.
  - apply Forall_forall. intros part Hin. apply Hpart.
    unfold fixed_parts. apply in_app_iff. right. by apply list_elem_of_In.
  - constructor.
Qed.

Lemma get_skill_objects_registered profile :
  Forall (λ module, module ∈ registered_modules) (get_skill_objects profile).
Proof.
  apply Forall_forall. intros module Hin.
  apply list_elem_of_omap in Hin as (domain & _ & Hdomain).
  by apply SKILL_DOMAINS_values in Hdomain.
Qed.

(** The response a freshly built stub model gives to instructions that are
    not empty. *)
Lemma init_generate_response name text input_text :
  _generate_response (__init__ name) (Some text) input_text
  = Ok (canned (select (lower text))).
Proof.
  rewrite generate_response_select. apply init_rule_response.
Qed.

(** Instructions free of every signature substring get the default
    response. *)
Lemma select_free_of_all lowered :
  Forall (λ signature, contains signature lowered = false) all_signatures →
  select lowered = DefaultRule.
Proof.
  intros H. unfold all_signatures, earlier_signatures in H. cbn [app] in H.
  repeat (apply Forall_cons in H as [? H]).
  apply select_unmatched. repeat constructor; cbn [rule_matches];
    repeat match goal with Hc : contains _ _ = false |- _ => rewrite Hc; clear Hc end;
    by rewrite ?andb_false_r.
Qed.

(** The assembled instructions of a profile without custom instructions
    and without the communication module select the default response,
    in whatever order the modules are taken. *)
Lemma unlinked_default profile (modules : list SkillDomain) name input_text :
  custom_instructions profile = None →
  Forall (λ module, module ∈ registered_modules) modules →
  CommunicationSkills ∉ modules →
  let text := join "
" (blocks_with default_base_instructions default_legendary_principles
     profile modules) in
  Forall (λ signature, contains signature (lower text) = false) all_signatures
  ∧ _generate_response (__init__ name) (Some text) input_text
    = Ok default_response.
Proof.
  intros Hcustom Hregistered Hcomm text.
  assert (Forall (λ signature, contains signature (lower text) = false)
            all_signatures) as Hfree.
  { apply free_of_join; [reflexivity |].
    apply blocks_free_of; [done | vm_compute; reflexivity |].
    apply Forall_forall. intros module Hin.
    assert (module ≠ CommunicationSkills) as Hne by (intros ->; done).
    rewrite Forall_forall in Hregistered. specialize (Hregistered _ Hin).
    unfold registered_modules in Hregistered.
    repeat (apply elem_of_cons in Hregistered as [-> | Hregistered];
            [ first [ done | vm_compute; reflexivity ] |]).
    by apply elem_of_nil in Hregistered. }
  split; [exact Hfree |].
  rewrite init_generate_response. by rewrite (select_free_of_all _ Hfree).
Qed.

(** C1. The link from the analytical_master profile to the
    analytical_master response is missing from the code.  The canonical
    analytical_master profile is the one with the skill modules
    problem_solving, meta_cognition and domain_expertise, focus ANALYTICAL
    and intensity LEGENDARY.  The stub model looks for the profile's name
    and for the beginning of its description, "exceptional analytical";
    the assembler emits neither, so the assembled instructions contain
    none of the signature substrings nor "training", and classifying them
    selects the default response and not the analytical_master response,
    whatever the order in which the set yields the modules. *)
Theorem analytical_master_linkage (σ : heap) (name input_text : string) :
  get_training_profile "analytical_master" = Ok analytical_master
  ∧ (∃ text σ',
       assemble analytical_master σ = Ok (text, σ')
       ∧ Forall (λ signature, contains signature (lower text) = false)
           all_signatures
       ∧ _generate_response (__init__ name) (Some text) input_text
         = Ok default_response)
  ∧ default_response ≠ analytical_master_response
  ∧ (∀ modules,
       modules ≡ₚ get_skill_objects analytical_master →
       _generate_response (__init__ name)
         (Some (join "
" (blocks_with default_base_instructions default_legendary_principles
     analytical_master modules))) input_text
       = Ok default_response).
Proof.
  assert (∀ modules, modules ≡ₚ get_skill_objects analytical_master →
            Forall (λ module, module ∈ registered_modules) modules
            ∧ CommunicationSkills ∉ modules) as Hmodules.
  { intros modules Hperm. split.
    - rewrite Hperm. apply get_skill_objects_registered.
    - rewrite Hperm. vm_compute. intros H.
      repeat (apply elem_of_cons in H as [H | H]; [discriminate H |]).
      by apply elem_of_nil in H. }
  split_and!.
  - reflexivity.
  - destruct σ as [L ags]. eexists _, _. split; [apply assemble_run |].
    destruct (Hmodules _ (reflexivity _)) as [Hreg Hcomm].
    by apply unlinked_default.
  - vm_compute. discriminate.
  - intros modules Hperm. destruct (Hmodules _ Hperm) as [Hreg Hcomm].
    by apply unlinked_default.
Qed.

Lemma analytical_master_linkage_witness :
  _generate_response (__init__ "stub-model")
    (Some (join "
" (blocks_with default_base_instructions default_legendary_principles
     analytical_master [ProblemSolving; DomainExpertise; MetaCognition])))
    "hello"
  = Ok default_response.
Proof.
  apply (proj2 (proj2 (proj2 (analytical_master_linkage empty_store
                                 "stub-model" "hello")))
           [ProblemSolving; DomainExpertise; MetaCognition]).
  rewrite get_skill_objects_elements.
  change (omap _ (elements (skill_domains analytical_master)))
    with [MetaCognition; DomainExpertise; ProblemSolving].
  rewrite (Permutation_swap DomainExpertise MetaCognition [ProblemSolving]).
  apply Permutation_cons_append.
Defined.

(** The same on the profile the registry returns, in the order its set
    has here: the instructions assembled for analytical_master do not
    contain "exceptional analytical", and the response selected for them
    is not the analytical_master response. *)
Lemma analytical_master_not_selected :
  ∃ text σ',
    get_training_profile "analytical_master" = Ok analytical_master
    ∧ assemble analytical_master empty_store = Ok (text, σ')
    ∧ contains "exceptional analytical" (lower text) = false
    ∧ _generate_response (__init__ "stub-model") (Some text) "hello"
      = Ok default_response
    ∧ _generate_response (__init__ "stub-model") (Some text) "hello"
      ≠ Ok analytical_master_response.
Proof.
  eexists _, _. split; [reflexivity |]. split; [apply assemble_run |].
  split; [vm_compute; reflexivity |].
  assert (_generate_response (__init__ "stub-model")
            (Some (instruction_text analytical_master)) "hello"
          = Ok default_response) as Hdefault by (vm_compute; reflexivity).
  split; [exact Hdefault |].
  rewrite Hdefault. vm_compute. discriminate.
Qed.

(** C10. For a profile without custom instructions whose resolved modules
    include the communication module, the assembled instructions contain
    "master communicator" and none of the signature substrings of the
    earlier rules, so classifying them selects the communication_expert
    response; the text does not depend on the profile's name and
    description. *)
Theorem communication_module_linkage
    (profile : TrainingProfile) (σ : heap) (name input_text : string) :
  CommunicationSkills ∈ get_skill_objects profile →
  custom_instructions profile = None →
  ∃ text σ',
    assemble profile σ = Ok (text, σ')
    ∧ contains "master communicator" (lower text) = true
    ∧ Forall (λ signature, contains signature (lower text) = false)
        earlier_signatures
    ∧ _generate_response (__init__ name) (Some text) input_text
      = Ok communication_expert_response
    ∧ ∀ name' description',
        assemble (renamed name' description' profile) σ = Ok (text, σ').
Proof.
  intros Hcomm Hcustom. destruct σ as [L ags].
  eexists _, _. split; [apply assemble_run |].
  assert (contains "master communicator" (lower (instruction_text profile))
          = true) as Hmaster.
  { apply contains_join_part with (part := get_instructions CommunicationSkills);
      [reflexivity | | vm_compute; reflexivity].
    unfold blocks, blocks_with.
    rewrite !elem_of_app. right. right. right. left.
    apply list_elem_of_In, in_concat.
    exists (module_block CommunicationSkills). split.
    - apply in_map, list_elem_of_In, Hcomm.
    - right. by left. }
  assert (Forall (λ signature,
            contains signature (lower (instruction_text profile)) = false)
            earlier_signatures) as Hfree.
  { apply free_of_join; [reflexivity |].
    apply blocks_free_of; [done | vm_compute; reflexivity |].
    eapply Forall_impl; [apply get_skill_objects_registered |].
    intros module Hin. unfold registered_modules in Hin.
    repeat (apply elem_of_cons in Hin as [-> | Hin];
            [ vm_compute; reflexivity |]).
    by apply elem_of_nil in Hin. }
  split_and!; [exact Hmaster | exact Hfree | |
               intros name' description'; rewrite assemble_run; reflexivity].
  rewrite init_generate_response.
  unfold earlier_signatures in Hfree.
  repeat (apply Forall_cons in Hfree as [? Hfree]).
  unfold select, priority. cbn [List.find rule_matches].
  repeat match goal with
         | Hc : contains _ _ = _ |- _ => rewrite Hc; clear Hc
         end.
  reflexivity.
Qed.

Lemma communication_module_linkage_witness :
  ∃ text σ',
    assemble legendary_sage empty_store = Ok (text, σ')
    ∧ contains "master communicator" (lower text) = true
    ∧ Forall (λ signature, contains signature (lower text) = false)
        earlier_signatures
    ∧ _generate_response (__init__ "stub-model") (Some text) "hello"
      = Ok communication_expert_response
    ∧ ∀ name' description',
        assemble (renamed name' description' legendary_sage) empty_store
        = Ok (text, σ').
Proof.
  apply (communication_module_linkage legendary_sage empty_store
           "stub-model" "hello").
  - rewrite get_skill_objects_elements.
    apply list_elem_of_omap. exists "communication". split.
    + apply elem_of_elements, elem_of_dom. by exists CommunicationSkills.
    + reflexivity.
  - reflexivity.
Defined.

End Linkage.

(** ** More on the training system *)

Module AssemblerExtras.
Import Py PyFacts SkillDomains MasterTraining Stub Spec.
Import AssemblerFacts TrainingProperties StubProperties Linkage.

Lemma len_app (a b : string) :
  String.length (a +:+ b) = String.length a + String.length b.
Proof.
  induction a as [|x a IH]; [done |].
  change (S (String.length (a +:+ b)) = S (String.length a + String.length b)).
  by rewrite IH.
Qed.

Lemma startswith_refl (s : string) : startswith s s = true.
Proof. induction s as [|x s IH]; [done |]. simpl. by rewrite Ascii.eqb_refl. Qed.

Lemma contains_refl (s : string) : contains s s = true.
Proof. destruct s; [done |]. cbn [contains]. by rewrite startswith_refl. Qed.

Lemma bool_of_str_app_r (a b : string) :
  bool_of_str b = true → bool_of_str (a +:+ b) = true.
Proof. by destruct a, b. Qed.

(** What occurs in a part occurs in the joined text. *)
Lemma contains_join_elem (sub sep part : string) (parts : list string) :
  part ∈ parts → contains sub part = true →
  contains sub (join sep parts) = true.
Proof.
  intros Hin Hpart. induction parts as [|x rest IH]; [by apply elem_of_nil in Hin |].
  destruct rest as [|y rest].
  - apply list_elem_of_singleton in Hin as ->. done.
  - rewrite join_cons by done.
    apply elem_of_cons in Hin as [-> | Hin].
    + by apply contains_app_l.
    + by apply contains_app_r, contains_app_r, IH.
Qed.

(** The length of a joined text. *)
Lemma len_join (sep : string) (parts : list string) :
  String.length (join sep parts)
  = total_length parts + String.length sep * (length parts - 1).
Proof.
  induction parts as [|x rest IH]; [simpl; lia |].
  destruct rest as [|y rest]; [simpl; lia |].
  rewrite join_cons, !len_app, IH by done.
  cbn [total_length length]. lia.
Qed.

Lemma total_length_app (a b : list string) :
  total_length (a ++ b) = total_length a + total_length b.
Proof. induction a as [|x a IH]; simpl; [done | rewrite IH; lia]. Qed.

(** The assembled instructions have at least the length the base
    instructions and the principles give them. *)
Lemma instruction_text_len profile : 1500 ≤ String.length (instruction_text profile).
Proof.
  unfold instruction_text. rewrite len_join.
  unfold blocks, blocks_with.
  rewrite !total_length_app, !length_app.
  assert (total_length [default_base_instructions] = 921) as -> by reflexivity.
  assert (total_length (principles_block default_legendary_principles) = 567)
    as -> by reflexivity.
  assert (length (principles_block default_legendary_principles) = 12)
    as -> by reflexivity.
  change (String.length "
") with 1. simpl length. lia.
Qed.

Lemma instruction_text_nonempty profile :
  bool_of_str (instruction_text profile) = true.
Proof.
  pose proof (instruction_text_len profile) as H.
  destruct (instruction_text profile); [simpl in H; lia | done].
Qed.

(** Every block the assembler appends can be read back from the text it
    returns: the base instructions, the header and the instructions of
    every resolved skill domain, every principle on its own line, and
    custom instructions that are not empty. *)
Theorem generate_instructions_complete
    (self : LegendaryTraining) (profile : TrainingProfile) (σ : heap)
    (principles : list string) :
  lists σ !! legendary_principles self = Some principles →
  ∃ text σ',
    generate_instructions self profile σ = Ok (text, σ')
    ∧ contains (base_instructions self) text = true
    ∧ (∀ skill, skill ∈ get_skill_objects profile →
         contains ("
## " +:+ SkillDomains.name skill +:+ "
") text = true
         ∧ contains (get_instructions skill) text = true)
    ∧ (∀ principle, principle ∈ principles →
         contains ("- " +:+ principle) text = true)
    ∧ (∀ custom, custom_instructions profile = Some custom → custom ≠ "" →
         contains custom text = true).
Proof.
  destruct σ as [L ags]. simpl. intros Hps.
  eexists _, _. split; [by apply generate_instructions_run |].
  unfold blocks, blocks_with. split_and!.
  - eapply contains_join_elem; [| apply contains_refl]. set_solver.
  - intros skill Hskill.
    assert (∀ part, part ∈ module_block skill →
              part ∈ concat (map module_block (get_skill_objects profile)))
      as Hblock.
    { intros part Hpart. apply list_elem_of_In, in_concat.
      exists (module_block skill). split; [| by apply list_elem_of_In].
      by apply in_map, list_elem_of_In. }
    split; (eapply contains_join_elem; [| apply contains_refl]);
      rewrite !elem_of_app; right; right; right; left;
      apply Hblock; unfold module_block; set_solver.
  - intros principle Hprinciple.
    eapply contains_join_elem; [| apply contains_refl].
    rewrite !elem_of_app. do 4 right. left.
    unfold principles_block. rewrite elem_of_app. right.
    apply list_elem_of_fmap. eauto.
  - intros custom Hcustom Hne.
    apply contains_join_elem with (part := "
## Additional Instructions
" +:+ custom); [| apply contains_app_r, contains_refl].
    rewrite !elem_of_app. do 5 right.
    unfold custom_block. rewrite Hcustom.
    destruct custom; [done |]. cbn. apply list_elem_of_singleton. done.
Qed.

Lemma generate_instructions_complete_witness :
  ∃ text σ',
    generate_instructions
      {| base_instructions := default_base_instructions;
         legendary_principles := 0 |} research_profile one_agent_store
    = Ok (text, σ')
    ∧ contains default_base_instructions text = true
    ∧ (∀ skill, skill ∈ get_skill_objects research_profile →
         contains ("
## " +:+ SkillDomains.name skill +:+ "
") text = true
         ∧ contains (get_instructions skill) text = true)
    ∧ (∀ principle, principle ∈ default_legendary_principles →
         contains ("- " +:+ principle) text = true)
    ∧ (∀ custom, custom_instructions research_profile = Some custom →
         custom ≠ "" → contains custom text = true).
Proof.
  apply (generate_instructions_complete
           {| base_instructions := default_base_instructions;
              legendary_principles := 0 |} research_profile one_agent_store
           default_legendary_principles).
  reflexivity.
Defined.

(** The instructions assembled by a fresh training system are never empty:
    they begin with the base instructions and have at least 1500
    characters, whatever the profile. *)
Theorem assemble_at_least_base_and_principles
    (profile : TrainingProfile) (σ : heap) :
  ∃ text σ',
    assemble profile σ = Ok (text, σ')
    ∧ startswith default_base_instructions text = true
    ∧ 1500 ≤ len text
    ∧ bool_of_str text = true.
Proof.
  destruct σ as [L ags]. eexists _, _. split; [apply assemble_run |].
  split_and!.
  - unfold instruction_text, blocks, blocks_with.
    change ([default_base_instructions] ++ ?l) with (default_base_instructions :: l).
    destruct (_ ++ _) as [|y rest] eqn:Hrest.
    + apply startswith_refl.
    + rewrite join_cons by done. apply startswith_app.
  - apply instruction_text_len.
  - apply instruction_text_nonempty.
Qed.

Lemma startswith_lower (p s : string) :
  startswith p s = true → startswith (lower p) (lower s) = true.
Proof.
  revert s. induction p as [|x p IH]; intros [|y s]; try done.
  simpl. intros [->%Ascii.eqb_eq H]%andb_true_iff.
  by rewrite Ascii.eqb_refl, IH.
Qed.

Lemma contains_lower (sub s : string) :
  contains sub s = true → contains (lower sub) (lower s) = true.
Proof.
  induction s as [|y s IH].
  - cbn [contains lower]. rewrite !orb_false_r. apply (startswith_lower sub "").
  - change (contains sub (String y s))
      with (startswith sub (String y s) || contains sub s).
    change (contains (lower sub) (lower (String y s)))
      with (startswith (lower sub) (lower (String y s))
            || contains (lower sub) (lower s)).
    intros [H | H]%orb_true_iff.
    + by rewrite (startswith_lower _ _ H).
    + by rewrite IH, orb_true_r.
Qed.

Lemma blocks_with_falsy base principles profile modules :
  bool_of_optstr (custom_instructions profile) = false →
  blocks_with base principles profile modules
  = blocks_with base principles (with_custom None profile) modules.
Proof.
  intros H. unfold blocks_with, custom_block. cbn.
  destruct (custom_instructions profile) as [custom|]; [| done].
  cbn in H. by rewrite H.
Qed.

(** The "Additional Instructions" section is present exactly when the
    profile has custom instructions that are not empty: an empty string is
    treated like no custom instructions at all. *)
Theorem additional_instructions_iff_custom
    (profile : TrainingProfile) (σ : heap) :
  ∃ text σ',
    assemble profile σ = Ok (text, σ')
    ∧ contains "## Additional Instructions" text
      = bool_of_optstr (custom_instructions profile)
    ∧ (bool_of_optstr (custom_instructions profile) = false →
       assemble (with_custom None profile) σ = Ok (text, σ')).
Proof.
  destruct σ as [L ags]. eexists _, _. split; [apply assemble_run |].
  destruct (bool_of_optstr (custom_instructions profile)) eqn:Hcustom.
  - split; [| done].
    destruct (custom_instructions profile) as [custom|] eqn:Heq; [| done].
    cbn in Hcustom.
    apply contains_join_elem with (part := "
## Additional Instructions
" +:+ custom);
      [| apply (contains_app_l _ "
## Additional Instructions
" custom); reflexivity ].
    unfold blocks, blocks_with. rewrite !elem_of_app. do 5 right.
    unfold custom_block. rewrite Heq, Hcustom. by apply list_elem_of_singleton.
  - assert (blocks default_base_instructions default_legendary_principles profile
            = blocks default_base_instructions default_legendary_principles
                (with_custom None profile)) as Hblocks
      by (by apply blocks_with_falsy).
    split.
    + destruct (contains "## Additional Instructions" (instruction_text profile))
        eqn:Hin; [| done].
      apply contains_lower in Hin.
      unfold instruction_text in Hin. rewrite Hblocks in Hin.
      assert (Forall (λ signature,
                contains signature
                  (lower (join "
" (blocks default_base_instructions default_legendary_principles
     (with_custom None profile)))) = false)
                [lower "## Additional Instructions"]) as Hfree.
      { apply free_of_join; [reflexivity |].
        apply blocks_free_of; [done | vm_compute; reflexivity |].
        eapply Forall_impl; [apply get_skill_objects_registered |].
        intros module Hm. unfold registered_modules in Hm.
        repeat (apply elem_of_cons in Hm as [-> | Hm];
                [ vm_compute; reflexivity |]).
        by apply elem_of_nil in Hm. }
      apply (proj1 (Forall_singleton _ _)) in Hfree. cbv beta in Hfree.
      congruence.
    + intros _. rewrite assemble_run. unfold instruction_text.
      by rewrite Hblocks.
Qed.

Lemma additional_instructions_iff_custom_witness :
  ∃ text σ',
    assemble (with_custom (Some "") analytical_master) empty_store
    = Ok (text, σ')
    ∧ contains "## Additional Instructions" text = false
    ∧ assemble (with_custom None (with_custom (Some "") analytical_master))
        empty_store
      = Ok (text, σ').
Proof.
  destruct (additional_instructions_iff_custom
              (with_custom (Some "") analytical_master) empty_store)
    as (text & σ' & Hrun & Hheader & Hsame).
  exists text, σ'. split; [exact Hrun |]. split; [exact Hheader |].
  apply Hsame. reflexivity.
Defined.
Section Environment.
Variable reasoning_importable : bool.

(** Training accumulates.  Applying a second profile to an agent appends
    its instructions, after a blank line, to those the first application
    left; the instructions grow strictly at each step and contain the text
    of both profiles; settings the first application gave are kept by the
    second. *)
Theorem apply_legendary_training_twice
    (agent : loc) (first second : TrainingProfile) (σ : heap) (ag : Agent.t) :
  agents σ !! agent = Some ag →
  ∃ text1 text2 σa σb σ1 σ2 ag1 ag2 grown1 grown2,
    assemble first σ = Ok (text1, σa)
    ∧ assemble second σ = Ok (text2, σb)
    ∧ apply_legendary_training reasoning_importable agent first σ
      = Ok (agent, σ1)
    ∧ apply_legendary_training reasoning_importable agent second σ1
      = Ok (agent, σ2)
    ∧ agents σ1 !! agent = Some ag1 ∧ agents σ2 !! agent = Some ag2
    ∧ Agent.instructions ag1 = Some grown1
    ∧ Agent.instructions ag2 = Some grown2
    ∧ grown2 = grown1 +:+ "

" +:+ text2
    ∧ (∀ original, Agent.instructions ag = Some original →
                   len original < len grown1)
    ∧ len grown1 < len grown2
    ∧ contains text1 grown2 = true ∧ contains text2 grown2 = true
    ∧ (is_Some (Agent.model_settings ag1) →
       Agent.model_settings ag2 = Agent.model_settings ag1).
Proof.
  destruct σ as [L ags]. simpl. intros Hag.
  pose (ts := {| base_instructions := default_base_instructions;
                 legendary_principles := 0 |}).
  pose (ag1 := trained reasoning_importable ts first (instruction_text first) ag).
  pose (ag2 := trained reasoning_importable ts second (instruction_text second) ag1).
  assert (∃ grown1, Agent.instructions ag1 = Some grown1
                    ∧ bool_of_str grown1 = true
                    ∧ contains (instruction_text first) grown1 = true
                    ∧ ∀ original, Agent.instructions ag = Some original →
                                  len original < len grown1)
    as (grown1 & Hgrown1 & Htrue & Hin1 & Hlen1).
  { pose proof (instruction_text_len first) as Hlen.
    pose proof (instruction_text_nonempty first) as Hne.
    subst ag1. unfold trained. cbn [Agent.instructions].
    destruct (Agent.instructions ag) as [previous|]; eexists; (split; [reflexivity |]).
    - destruct (bool_of_str previous) eqn:Hprev.
      + split_and!.
        * by apply bool_of_str_app_r, bool_of_str_app_r.
        * apply contains_app_r, contains_app_r, contains_refl.
        * intros original [= <-]. unfold len. rewrite !len_app. simpl. lia.
      + split_and!; [done | apply contains_refl |].
        intros original [= <-]. destruct previous; [| done].
        unfold len. simpl. lia.
    - split_and!; [done | apply contains_refl | done]. }
  exists (instruction_text first), (instruction_text second).
  eexists _, _, _, _. exists ag1, ag2, grown1. eexists.
  split; [apply assemble_run |]. split; [apply assemble_run |].
  split; [by apply apply_legendary_training_run with (training_system := ts) |].
  split.
  { apply apply_legendary_training_run with (training_system := ts) (ag := ag1).
    apply lookup_insert_eq. }
  split; [apply lookup_insert_eq |].
  split; [cbn [agents]; apply lookup_insert_eq |].
  split; [exact Hgrown1 |].
  assert (Agent.instructions ag2
          = Some (grown1 +:+ "

" +:+ instruction_text second)) as Hgrown2.
  { subst ag2. unfold trained at 1. cbn [Agent.instructions].
    by rewrite Hgrown1, Htrue. }
  split; [exact Hgrown2 |]. split; [reflexivity |]. split; [exact Hlen1 |].
  split_and!.
  - unfold len. rewrite !len_app. simpl. lia.
  - by apply contains_app_l.
  - apply contains_app_r, contains_app_r, contains_refl.
  - intros [settings Hsettings]. subst ag2. unfold trained at 1.
    cbn [Agent.model_settings]. by rewrite Hsettings.
Qed.

(** The settings of an agent change exactly when it had none and the
    profile asks for enhanced reasoning at LEGENDARY or ADVANCED
    intensity; in every other case they are left as they were. *)
Theorem apply_changes_settings_iff
    (agent : loc) (profile : TrainingProfile) (σ : heap) (ag : Agent.t) :
  agents σ !! agent = Some ag →
  ∃ σ' ag',
    apply_legendary_training reasoning_importable agent profile σ
    = Ok (agent, σ')
    ∧ agents σ' !! agent = Some ag'
    ∧ (Agent.model_settings ag' ≠ Agent.model_settings ag
       ↔ Agent.model_settings ag = None
         ∧ enhanced_reasoning profile = true
         ∧ (intensity profile = LEGENDARY ∨ intensity profile = ADVANCED)).
Proof.
  destruct σ as [L ags]. simpl. intros Hag.
  pose (ts := {| base_instructions := default_base_instructions;
                 legendary_principles := 0 |}).
  eexists _, _.
  split; [by apply apply_legendary_training_run with (training_system := ts) |].
  split; [apply lookup_insert_eq |].
  unfold trained, create_enhanced_model_settings. cbn [Agent.model_settings].
  destruct (Agent.model_settings ag) as [own|];
    destruct (enhanced_reasoning profile), (intensity profile),
      reasoning_importable; cbn; split;
    try (intros H; exfalso; apply H; reflexivity);
    try (intros (? & ? & [? | ?]); discriminate);
    try (intros _; split_and!; [done | done | by eauto]);
    try (intros _; discriminate).
Qed.

End Environment.

Lemma apply_legendary_training_twice_witness :
  ∃ text1 text2 σa σb σ1 σ2 ag1 ag2 grown1 grown2,
    assemble analytical_master one_agent_store = Ok (text1, σa)
    ∧ assemble legendary_sage one_agent_store = Ok (text2, σb)
    ∧ apply_legendary_training true 7 analytical_master one_agent_store
      = Ok (7, σ1)
    ∧ apply_legendary_training true 7 legendary_sage σ1 = Ok (7, σ2)
    ∧ agents σ1 !! 7 = Some ag1 ∧ agents σ2 !! 7 = Some ag2
    ∧ Agent.instructions ag1 = Some grown1
    ∧ Agent.instructions ag2 = Some grown2
    ∧ grown2 = grown1 +:+ "

" +:+ text2
    ∧ (∀ original, Agent.instructions basic_agent = Some original →
                   len original < len grown1)
    ∧ len grown1 < len grown2
    ∧ contains text1 grown2 = true ∧ contains text2 grown2 = true
    ∧ (is_Some (Agent.model_settings ag1) →
       Agent.model_settings ag2 = Agent.model_settings ag1).
Proof.
  apply (apply_legendary_training_twice true 7 analytical_master legendary_sage
           one_agent_store basic_agent).
  reflexivity.
Defined.

Lemma apply_changes_settings_iff_witness :
  ∃ σ' ag',
    apply_legendary_training false 7 analytical_master one_agent_store
    = Ok (7, σ')
    ∧ agents σ' !! 7 = Some ag'
    ∧ (Agent.model_settings ag' ≠ Agent.model_settings basic_agent
       ↔ Agent.model_settings basic_agent = None
         ∧ enhanced_reasoning analytical_master = true
         ∧ (intensity analytical_master = LEGENDARY
            ∨ intensity analytical_master = ADVANCED)).
Proof.
  apply (apply_changes_settings_iff false 7 analytical_master one_agent_store
           basic_agent).
  reflexivity.
Defined.
Section Creation.
Variable reasoning_importable : bool.
Variable Agent_new : gmap string PyValue → M heap loc.

(** [create_legendary_agent] calls the [Agent] constructor once, in the
    store assembling the instructions leaves, with the name it was given,
    the model it was given or "gpt-5" when that is absent or empty, and the
    base instructions followed by the training instructions.  A keyword
    argument [instructions] replaces the instructions altogether, and the
    enhanced settings of the profile replace a keyword argument
    [model_settings]; every other keyword argument is passed on
    untouched. *)
Theorem create_legendary_agent_kwargs
    (name : string) (profile : TrainingProfile) (base model : option string)
    (kwargs : gmap string PyValue) (σ : heap)
    (training_system : LegendaryTraining) :
  kwargs !! "name" = None →
  kwargs !! "model" = None →
  ∃ text σ' agent_kwargs,
    assemble profile σ = Ok (text, σ')
    ∧ create_legendary_agent reasoning_importable Agent_new
        name profile base model kwargs σ
      = Agent_new agent_kwargs σ'
    ∧ agent_kwargs !! "name" = Some (PStr name)
    ∧ agent_kwargs !! "model" = Some (PStr (created_model model))
    ∧ agent_kwargs !! "instructions"
      = Some (default (PStr (created_instructions base text))
                (kwargs !! "instructions"))
    ∧ agent_kwargs !! "model_settings"
      = match create_enhanced_model_settings reasoning_importable
                training_system profile with
        | Some settings => Some (PSettings settings)
        | None => kwargs !! "model_settings"
        end
    ∧ ∀ key, key ∉ ["name"; "model"; "instructions"; "model_settings"] →
             agent_kwargs !! key = kwargs !! key.
Proof.
  intros Hname Hmodel. destruct σ as [L ags].
  set (fixed := ({[ "name" := PStr name;
                    "instructions" := PStr (created_instructions base
                                              (instruction_text profile));
                    "model" := PStr (created_model model) ]}
                 : gmap string PyValue)).
  exists (instruction_text profile). eexists.
  exists (match create_enhanced_model_settings reasoning_importable
                  training_system profile with
          | Some settings => <["model_settings" := PSettings settings]> (kwargs ∪ fixed)
          | None => kwargs ∪ fixed
          end).
  split; [apply assemble_run |].
  split.
  { unfold create_legendary_agent.
    erewrite bind_Ok by apply LegendaryTraining_new_run.
    unfold building at 1.
    erewrite bind_Ok.
    2:{ apply generate_instructions_run with (ps := default_legendary_principles).
        simpl. by rewrite list_lookup_middle. }
    cbv zeta. cbn [MasterTraining.base_instructions].
    fold (instruction_text profile).
    rewrite (create_enhanced_model_settings_self _ _ training_system).
    assert ((if negb (bool_of_optstr model) then "gpt-5" else default "" model)
            = created_model model) as ->
      by (destruct model as [m|]; [cbn; by destruct (bool_of_str m) | done]).
    assert ((if bool_of_optstr base
             then default "" base +:+ "

" +:+ instruction_text profile
             else instruction_text profile)
            = created_instructions base (instruction_text profile)) as ->
      by (by destruct base).
    reflexivity. }
  assert (fixed !! "name" = Some (PStr name)) as Hf1 by done.
  assert (fixed !! "model" = Some (PStr (created_model model))) as Hf2 by done.
  assert (fixed !! "instructions"
          = Some (PStr (created_instructions base (instruction_text profile))))
    as Hf3 by done.
  assert (fixed !! "model_settings" = None) as Hf4 by done.
  assert (∀ key, key ∉ ["name"; "model"; "instructions"; "model_settings"] →
                 fixed !! key = None) as Hf5.
  { intros key Hkey. subst fixed.
    repeat (apply not_elem_of_cons in Hkey as [? Hkey]).
    by rewrite !lookup_insert_ne, lookup_singleton_ne. }
  clearbody fixed.
  destruct (create_enhanced_model_settings _ _ _) as [settings|]; split_and!.
  - rewrite lookup_insert_ne by done.
    by rewrite lookup_union_r, Hf1.
  - rewrite lookup_insert_ne by done.
    by rewrite lookup_union_r, Hf2.
  - rewrite lookup_insert_ne by done.
    rewrite lookup_union, Hf3. by destruct (kwargs !! "instructions").
  - by rewrite lookup_insert_eq.
  - intros key Hkey. pose proof (Hf5 key Hkey) as Hnone.
    repeat (apply not_elem_of_cons in Hkey as [? Hkey]).
    rewrite lookup_insert_ne by done.
    rewrite lookup_union, Hnone. by destruct (kwargs !! key).
  - by rewrite lookup_union_r, Hf1.
  - by rewrite lookup_union_r, Hf2.
  - rewrite lookup_union, Hf3. by destruct (kwargs !! "instructions").
  - rewrite lookup_union, Hf4. by destruct (kwargs !! "model_settings").
  - intros key Hkey. rewrite lookup_union, (Hf5 key Hkey).
    by destruct (kwargs !! key).
Qed.

End Creation.

Lemma create_legendary_agent_kwargs_witness :
  ∃ text σ' agent_kwargs,
    assemble analytical_master empty_store = Ok (text, σ')
    ∧ create_legendary_agent true agent_from_kwargs
        "Custom Model Agent" analytical_master None (Some "gpt-4")
        {[ "instructions" := PStr "Say hello." ]} empty_store
      = agent_from_kwargs agent_kwargs σ'
    ∧ agent_kwargs !! "name" = Some (PStr "Custom Model Agent")
    ∧ agent_kwargs !! "model" = Some (PStr (created_model (Some "gpt-4")))
    ∧ agent_kwargs !! "instructions"
      = Some (default (PStr (created_instructions None text))
                (({[ "instructions" := PStr "Say hello." ]}
                  : gmap string PyValue) !! "instructions"))
    ∧ agent_kwargs !! "model_settings"
      = match create_enhanced_model_settings true
                {| base_instructions := default_base_instructions;
                   legendary_principles := 0 |} analytical_master with
        | Some settings => Some (PSettings settings)
        | None => ({[ "instructions" := PStr "Say hello." ]}
                   : gmap string PyValue) !! "model_settings"
        end
    ∧ ∀ key, key ∉ ["name"; "model"; "instructions"; "model_settings"] →
             agent_kwargs !! key
             = ({[ "instructions" := PStr "Say hello." ]}
                : gmap string PyValue) !! key.
Proof.
  apply (create_legendary_agent_kwargs true agent_from_kwargs
           "Custom Model Agent" analytical_master None (Some "gpt-4")
           {[ "instructions" := PStr "Say hello." ]} empty_store
           {| base_instructions := default_base_instructions;
              legendary_principles := 0 |}).
  - reflexivity.
  - reflexivity.
Defined.
Lemma length_omap_full {X Y} (f : X → option Y) (l : list X) :
  length (omap f l) = length l ↔ Forall (λ x, is_Some (f x)) l.
Proof.
  induction l as [|x l IH]; csimpl; [by split |].
  pose proof (length_omap_le f l) as Hle.
  rewrite Forall_cons. destruct (f x) as [y|]; csimpl.
  - rewrite <- IH. split; [intros [= ->]; eauto | intros [_ ->]; done].
  - split; [lia | intros [[? [=]] _]].
Qed.

Lemma NoDup_fmap_inj_on {X Y} (f : X → Y) (l : list X) (x y : X) :
  NoDup (f <$> l) → x ∈ l → y ∈ l → f x = f y → x = y.
Proof.
  induction l as [|z l IH]; csimpl; [by intros _ ?%elem_of_nil |].
  intros [Hz Hl]%NoDup_cons [-> | Hx]%elem_of_cons [-> | Hy]%elem_of_cons Heq.
  - done.
  - exfalso. apply Hz. rewrite Heq. by apply list_elem_of_fmap_2.
  - exfalso. apply Hz. rewrite <- Heq. by apply list_elem_of_fmap_2.
  - by apply IH.
Qed.

(** No two names of the registry stand for the same skill domain. *)
Lemma SKILL_DOMAINS_inj (d1 d2 : string) (skill : SkillDomain) :
  SKILL_DOMAINS !! d1 = Some skill → SKILL_DOMAINS !! d2 = Some skill → d1 = d2.
Proof.
  intros H1%elem_of_list_to_map_2 H2%elem_of_list_to_map_2.
  assert ((d1, skill) = (d2, skill)) as [= ->]; [| done].
  eapply (NoDup_fmap_inj_on (λ entry, SkillDomains.name entry.2));
    [| exact H1 | exact H2 | done].
  apply (bool_decide_unpack _). vm_compute. exact I.
Qed.

Lemma NoDup_omap {X Y} (f : X → option Y) (l : list X) :
  (∀ x1 x2 y, f x1 = Some y → f x2 = Some y → x1 = x2) →
  NoDup l → NoDup (omap f l).
Proof.
  intros Hinj. induction 1 as [|x l Hx _ IH]; csimpl; [constructor |].
  destruct (f x) as [y|] eqn:Hy; [| done].
  constructor; [| done].
  intros (x' & Hx' & Hy')%list_elem_of_omap.
  by rewrite (Hinj _ _ _ Hy Hy') in Hx.
Qed.

(** [get_skill_objects] returns as many skill domains as the profile has
    names exactly when every name is registered, and it never returns the
    same skill domain twice. *)
Theorem get_skill_objects_all_or_fewer (profile : TrainingProfile) :
  (length (get_skill_objects profile) = size (skill_domains profile)
   ↔ skill_domains profile ⊆ dom SKILL_DOMAINS)
  ∧ NoDup (get_skill_objects profile).
Proof.
  rewrite get_skill_objects_elements. split.
  - change (size (skill_domains profile))
      with (length (elements (skill_domains profile))).
    rewrite length_omap_full, Forall_forall.
    split.
    + intros H domain Hin. apply elem_of_dom, H. by apply elem_of_elements.
    + intros H domain Hin. apply elem_of_dom, H. by apply elem_of_elements.
  - apply NoDup_omap; [apply SKILL_DOMAINS_inj | apply NoDup_elements].
Qed.

Lemma dict_get_Some_elem {X} (key : string) (d : list (string * X)) (v : X) :
  dict_get key d = Some v → (key, v) ∈ d.
Proof.
  induction d as [|[k x] d IH]; simpl; [done |].
  destruct (String.eqb_spec key k) as [-> | _].
  - intros [= ->]. by left.
  - intros H. right. by apply IH.
Qed.

Lemma get_training_profile_Ok profile_name profile :
  get_training_profile profile_name = Ok profile →
  (profile_name, profile) ∈ profiles.
Proof.
  unfold get_training_profile.
  destruct (dict_get profile_name profiles) as [p|] eqn:Hget; [| done].
  intros [= <-]. by apply dict_get_Some_elem.
Qed.

(** The profiles of the registry are well formed: every skill name of a
    profile that [get_training_profile] returns is registered, so none is
    dropped; the profile has no custom instructions; and it asks for
    enhanced settings, which the training system grants. *)
Theorem registry_profiles_resolve
    (profile_name : string) (profile : TrainingProfile) :
  get_training_profile profile_name = Ok profile →
  skill_domains profile ⊆ dom SKILL_DOMAINS
  ∧ length (get_skill_objects profile) = size (skill_domains profile)
  ∧ custom_instructions profile = None
  ∧ ∀ reasoning_importable training_system,
      is_Some (create_enhanced_model_settings reasoning_importable
                 training_system profile).
Proof.
  intros H%get_training_profile_Ok. unfold profiles in H.
  repeat (apply elem_of_cons in H as [[= -> ->] | H]);
    [.. | by apply elem_of_nil in H];
    (split_and!;
     [ apply (bool_decide_unpack _); vm_compute; exact I
     | vm_compute; reflexivity
     | reflexivity
     | intros [] ?; cbn; eauto ]).
Qed.

Lemma registry_profiles_resolve_witness :
  skill_domains legendary_sage ⊆ dom SKILL_DOMAINS
  ∧ length (get_skill_objects legendary_sage) = size (skill_domains legendary_sage)
  ∧ custom_instructions legendary_sage = None
  ∧ ∀ reasoning_importable training_system,
      is_Some (create_enhanced_model_settings reasoning_importable
                 training_system legendary_sage).
Proof.
  apply (registry_profiles_resolve "legendary_sage" legendary_sage).
  reflexivity.
Defined.

(** Every skill domain of the registry has content: a name, a
    description, principles and techniques, instructions of more than 100
    characters, and at least three example prompts, none of them empty. *)
Theorem skill_domains_have_content (domain : string) (skill : SkillDomain) :
  SKILL_DOMAINS !! domain = Some skill →
  SkillDomains.name skill ≠ "" ∧ SkillDomains.description skill ≠ ""
  ∧ core_principles skill ≠ [] ∧ techniques skill ≠ []
  ∧ 100 < len (get_instructions skill)
  ∧ 3 ≤ length (get_prompts skill)
  ∧ Forall (λ prompt, prompt ≠ "") (get_prompts skill).
Proof.
  intros H%SKILL_DOMAINS_values. unfold registered_modules in H.
  repeat (apply elem_of_cons in H as [-> | H]);
    [.. | by apply elem_of_nil in H];
    (split_and!;
     [ done | done | done | done
     | vm_compute; lia
     | vm_compute; lia
     | repeat constructor; done ]).
Qed.

Lemma skill_domains_have_content_witness :
  SkillDomains.name CommunicationSkills ≠ ""
  ∧ SkillDomains.description CommunicationSkills ≠ ""
  ∧ core_principles CommunicationSkills ≠ []
  ∧ techniques CommunicationSkills ≠ []
  ∧ 100 < len (get_instructions CommunicationSkills)
  ∧ 3 ≤ length (get_prompts CommunicationSkills)
  ∧ Forall (λ prompt, prompt ≠ "") (get_prompts CommunicationSkills).
Proof.
  apply (skill_domains_have_content "communication" CommunicationSkills).
  reflexivity.
Defined.

End AssemblerExtras.

(** ** More on the response engine *)

Module EngineExtras.
Import Py PyFacts SkillDomains MasterTraining Stub Spec.
Import AssemblerFacts TrainingProperties StubProperties Linkage.

Lemma lower_char_idem (c : ascii) : lower_char (lower_char c) = lower_char c.
Proof. by destruct c as [[] [] [] [] [] [] [] []]. Qed.

Lemma lower_idem (s : string) : lower (lower s) = lower s.
Proof.
  induction s as [|c s IH]; [done |]. simpl. by rewrite lower_char_idem, IH.
Qed.

(** Letter case does not matter to the classification, and neither does
    the user input: instructions with the same lower-cased form get the
    same response, in particular a string and its lower-cased form. *)
Theorem classification_ignores_case
    (self : StubModel) (s s' input_text input_text' : string) :
  (lower s = lower s' →
   _generate_response self (Some s) input_text
   = _generate_response self (Some s') input_text')
  ∧ _generate_response self (Some (lower s)) input_text
    = _generate_response self (Some s) input_text'.
Proof.
  split.
  - intros H. rewrite !generate_response_select.
    change (default "" (Some s)) with s.
    change (default "" (Some s')) with s'. by rewrite H.
  - rewrite !generate_response_select.
    change (default "" (Some s)) with s.
    change (default "" (Some (lower s))) with (lower s). by rewrite lower_idem.
Qed.

Lemma classification_ignores_case_witness :
  _generate_response (__init__ "stub-model")
    (Some "You are the LEGENDARY SAGE") "first question"
  = _generate_response (__init__ "stub-model")
      (Some "you are the Legendary Sage") "second question".
Proof.
  apply (proj1 (classification_ignores_case (__init__ "stub-model")
                  "You are the LEGENDARY SAGE" "you are the Legendary Sage"
                  "first question" "second question")).
  reflexivity.
Defined.

Section Engine.
Variable uuid_source : nat → string.

Lemma get_response_Raise self sys input σ e :
  _generate_response self sys (input_text_of input) = Raise e →
  get_response uuid_source self sys input σ = Raise e.
Proof. intros H. unfold get_response, bind, lift. by rewrite H. Qed.

Lemma generate_response_input self sys input_text input_text' :
  _generate_response self sys input_text
  = _generate_response self sys input_text'.
Proof. by rewrite !generate_response_select. Qed.

(** The user input reaches nothing but the token counts: two calls that
    differ only in their input return the same output message, the same
    text, the same identifiers and the same number of output tokens. *)
Theorem response_ignores_input
    (self : StubModel) (sys : option string) (input input' : Input)
    (σ σ1 : nat) (response : ModelResponse.t) :
  get_response uuid_source self sys input σ = Ok (response, σ1) →
  ∃ response',
    get_response uuid_source self sys input' σ = Ok (response', σ1)
    ∧ ModelResponse.output response' = ModelResponse.output response
    ∧ ModelResponse.output_text response'
      = ModelResponse.output_text response
    ∧ ModelResponse.response_id response' = ModelResponse.response_id response
    ∧ Usage.output_tokens (ModelResponse.usage response')
      = Usage.output_tokens (ModelResponse.usage response).
Proof.
  intros H.
  pose proof (get_response_inv _ _ _ _ _ _ _ H) as Hgen.
  unfold get_response, bind, lift, uuid4, ret in *.
  rewrite Hgen in H. injection H as <- <-.
  rewrite (generate_response_input _ _ _ (input_text_of input)), Hgen.
  eexists. split; [reflexivity |]. done.
Qed.

(** The only exception of [get_response] is a missing key.  It raises
    exactly when the rule selected for the instructions reads a key that
    [legendary_responses] lacks, and it raises [KeyError] for that key.
    [stream_response] passes that exception on, and has one of its own:
    when [get_response] returns, it raises [AttributeError] for
    [response.text]. *)
Theorem missing_response_raises
    (self : StubModel) (sys : option string) (input : Input) (σ : nat)
    (e : exn) :
  (get_response uuid_source self sys input σ = Raise e
   ↔ ∃ key, rule_key (select (lower (default "" sys))) = Some key
            ∧ legendary_responses self !! key = None
            ∧ e = KeyError key)
  ∧ (stream_response uuid_source self sys input σ = Raise e
     ↔ get_response uuid_source self sys input σ = Raise e
       ∨ (e = AttributeError "text"
          ∧ ∃ response σ',
              get_response uuid_source self sys input σ = Ok (response, σ'))).
Proof.
  split.
  - destruct (_generate_response self sys (input_text_of input))
      as [text|e'] eqn:Hgen.
    + destruct (get_response_run uuid_source _ _ _ σ _ Hgen) as (r & -> & _).
      split; [done |]. intros (key & Hkey & Hnone & ->).
      rewrite generate_response_select in Hgen.
      destruct (select _); simplify_eq/=; unfold getitem in Hgen;
        by rewrite Hnone in Hgen.
    + rewrite (get_response_Raise _ _ _ _ _ Hgen).
      rewrite generate_response_select in Hgen.
      split.
      * intros [= <-].
        destruct (select _); cbn in Hgen; unfold getitem in Hgen;
          try discriminate;
          match type of Hgen with
          | context [?m !! ?k] =>
              destruct (m !! k) eqn:Hk; [discriminate |];
              injection Hgen as <-; exists k; done
          end.
      * intros (key & Hkey & Hnone & ->). f_equal.
        destruct (select _); simplify_eq/=; unfold getitem in Hgen;
          rewrite Hnone in Hgen; congruence.
  - rewrite stream_response_run.
    destruct (get_response uuid_source self sys input σ) as [[r σ']|e'].
    + split.
      * intros [= <-]. right. eauto.
      * by intros [? | [-> _]].
    + split.
      * intros [= <-]. by left.
      * intros [[= ->] | [_ (r & σ' & ?)]]; done.
Qed.

End Engine.

Lemma response_ignores_input_witness :
  ∃ response',
    get_response constant_uuids five_word_model None (InputItems []) 0
    = Ok (response', 2)
    ∧ ModelResponse.output response' = ModelResponse.output five_word_response
    ∧ ModelResponse.output_text response'
      = ModelResponse.output_text five_word_response
    ∧ ModelResponse.response_id response'
      = ModelResponse.response_id five_word_response
    ∧ Usage.output_tokens (ModelResponse.usage response')
      = Usage.output_tokens (ModelResponse.usage five_word_response).
Proof.
  apply (response_ignores_input constant_uuids five_word_model None
           (InputStr "one two three") (InputItems []) 0 2 five_word_response).
  vm_compute. reflexivity.
Defined.

Lemma missing_response_raises_witness :
  get_response constant_uuids model_without_default None (InputStr "hi") 0
  = Raise (KeyError "default").
Proof.
  apply (proj1 (missing_response_raises constant_uuids model_without_default
                  None (InputStr "hi") 0 (KeyError "default"))).
  exists "default". split_and!; reflexivity.
Defined.

(** *** Words *)

(** Lower-casing touches ASCII letters only: a byte it changes is below
    128 before and after. *)
Lemma lower_char_low (c : ascii) :
  lower_char c = c
  ∨ (nat_of_ascii c < 128 ∧ nat_of_ascii (lower_char c) < 128).
Proof.
  unfold lower_char, isupper.
  destruct (_ && _) eqn:H; [right | by left].
  apply andb_true_iff in H as [H1%Nat.leb_le H2%Nat.leb_le].
  rewrite nat_ascii_embedding by lia. lia.
Qed.

Lemma isspace_lower_char (c : ascii) : isspace (lower_char c) = isspace c.
Proof. by destruct c as [[] [] [] [] [] [] [] []]. Qed.

Lemma byte_lower_char (n : nat) (c : ascii) :
  128 ≤ n → byte n (lower_char c) = byte n c.
Proof.
  intros Hn. destruct (lower_char_low c) as [-> | [H1 H2]]; [done |].
  unfold byte.
  replace (nat_of_ascii (lower_char c) =? n) with false
    by (symmetry; apply Nat.eqb_neq; lia).
  symmetry. apply Nat.eqb_neq. lia.
Qed.

Lemma between_lower_char (lo hi : nat) (c : ascii) :
  128 ≤ lo → between lo hi (lower_char c) = between lo hi c.
Proof.
  intros Hlo. destruct (lower_char_low c) as [-> | [H1 H2]]; [done |].
  unfold between.
  replace (lo <=? nat_of_ascii (lower_char c)) with false
    by (symmetry; apply Nat.leb_gt; lia).
  replace (lo <=? nat_of_ascii c) with false
    by (symmetry; apply Nat.leb_gt; lia).
  done.
Qed.

(** Lower-casing neither makes nor unmakes white space. *)
Lemma space_width_lower (s : string) : space_width (lower s) = space_width s.
Proof.
  destruct s as [|a [|b [|c t]]]; cbn [lower space_width];
    rewrite ?isspace_lower_char; try done;
    unfold isspace2, isspace3;
    by rewrite ?byte_lower_char, ?between_lower_char by lia.
Qed.

Lemma token_count_from_lower (skip : nat) (fresh : bool) (s : string) :
  token_count_from skip fresh (lower s) = token_count_from skip fresh s.
Proof.
  revert skip fresh. induction s as [|c t IH]; intros skip fresh; [done |].
  change (lower (String c t)) with (String (lower_char c) (lower t)).
  cbn [token_count_from]. destruct skip as [|k]; [| apply IH].
  change (String (lower_char c) (lower t)) with (lower (String c t)).
  rewrite space_width_lower.
  destruct (space_width (String c t)); by rewrite IH.
Qed.

(** A text has as many tokens lower-cased as it has as it is. *)
Lemma token_count_lower (s : string) : token_count (lower s) = token_count s.
Proof. apply token_count_from_lower. Qed.

Lemma numbered_uuids_inj (m n : nat) :
  numbered_uuids m = numbered_uuids n → m = n.
Proof.
  revert n. induction m as [|m IH]; intros [|n]; simpl; try done.
  intros [= H]. f_equal. by apply IH.
Qed.

Section Words.
Variable uuid_source : nat → string.

(** Lower-casing the input does not change its words: the input token
    count is the number of whitespace-separated words of the input as it
    was given, and it is zero for an empty string or an empty list. *)
Theorem input_tokens_are_raw_words
    (self : StubModel) (sys : option string) (input : Input) (σ σ' : nat)
    (response : ModelResponse.t) :
  get_response uuid_source self sys input σ = Ok (response, σ') →
  Usage.input_tokens (ModelResponse.usage response)
  = length (split (raw_input_text input))
  ∧ (input = InputStr "" ∨ input = InputItems [] →
     Usage.input_tokens (ModelResponse.usage response) = 0).
Proof.
  intros H. pose proof (get_response_inv _ _ _ _ _ _ _ H) as Hgen.
  destruct (get_response_run uuid_source self sys input σ _ Hgen)
    as (r & Hr & _ & Husage).
  rewrite Hr in H. injection H as -> _. rewrite Husage. cbn [Usage.input_tokens].
  rewrite input_text_of_raw, !length_split, token_count_lower.
  split; [done |]. by intros [-> | ->].
Qed.

(** Each call draws two identifiers, one for the output message and one
    for the response, and leaves the source two further on; when the
    source never repeats a value, the four identifiers of two successive
    calls are pairwise different. *)
Theorem response_identifiers_fresh
    (self : StubModel) (sys sys' : option string) (input input' : Input)
    (σ σ1 σ2 : nat) (first second : ModelResponse.t) :
  (∀ m n, uuid_source m = uuid_source n → m = n) →
  get_response uuid_source self sys input σ = Ok (first, σ1) →
  get_response uuid_source self sys' input' σ1 = Ok (second, σ2) →
  σ1 = σ + 2 ∧ σ2 = σ + 4
  ∧ ResponseOutputMessage.id <$> ModelResponse.output first = [uuid_source σ]
  ∧ ModelResponse.response_id first = uuid_source (σ + 1)
  ∧ NoDup ((ResponseOutputMessage.id <$> ModelResponse.output first)
           ++ [ModelResponse.response_id first]
           ++ (ResponseOutputMessage.id <$> ModelResponse.output second)
           ++ [ModelResponse.response_id second]).
Proof.
  intros Hinj H1 H2.
  pose proof (get_response_inv _ _ _ _ _ _ _ H1) as Hgen1.
  pose proof (get_response_inv _ _ _ _ _ _ _ H2) as Hgen2.
  unfold get_response, bind, lift, uuid4, ret in H1, H2.
  rewrite Hgen1 in H1. rewrite Hgen2 in H2.
  injection H1 as <- <-. injection H2 as <- <-.
  cbn. replace (σ + 1) with (S σ) by lia.
  split_and!; [lia | lia | done | done |].
  repeat constructor; rewrite ?elem_of_cons, ?elem_of_nil;
    intros H; repeat destruct H as [H | H]; try done;
    apply Hinj in H; lia.
Qed.

End Words.

Lemma input_tokens_are_raw_words_witness :
  Usage.input_tokens (ModelResponse.usage five_word_response)
  = length (split (raw_input_text mixed_case_items))
  ∧ (mixed_case_items = InputStr "" ∨ mixed_case_items = InputItems [] →
     Usage.input_tokens (ModelResponse.usage five_word_response) = 0).
Proof.
  apply (input_tokens_are_raw_words constant_uuids five_word_model None
           mixed_case_items 0 2 five_word_response).
  vm_compute. reflexivity.
Defined.

Lemma response_identifiers_fresh_witness :
  ∃ first second,
    get_response numbered_uuids five_word_model None (InputStr "hi") 0
    = Ok (first, 2)
    ∧ get_response numbered_uuids five_word_model None (InputStr "hi") 2
      = Ok (second, 4)
    ∧ NoDup ((ResponseOutputMessage.id <$> ModelResponse.output first)
             ++ [ModelResponse.response_id first]
             ++ (ResponseOutputMessage.id <$> ModelResponse.output second)
             ++ [ModelResponse.response_id second]).
Proof.
  destruct (get_response_run numbered_uuids five_word_model None
              (InputStr "hi") 0 "Thank you for your question." eq_refl)
    as (first & H1 & _).
  destruct (get_response_run numbered_uuids five_word_model None
              (InputStr "hi") 2 "Thank you for your question." eq_refl)
    as (second & H2 & _).
  exists first, second. split; [exact H1 |]. split; [exact H2 |].
  apply (response_identifiers_fresh numbered_uuids five_word_model None None
           (InputStr "hi") (InputStr "hi") 0 2 4 first second
           numbered_uuids_inj H1 H2).
Defined.

(** A provider hands out working models under any name: the model is
    named as asked, or "stub-legendary-model" when the name is absent or
    empty, and calling it never raises; its response is the canned text of
    the rule the instructions select, as for a model built directly. *)
Theorem provider_models_respond
    (uuid_source : nat → string) (provider : StubModelProvider)
    (requested : option string) (sys : option string) (input : Input) (σ : nat) :
  model_name (get_model provider requested)
  = match requested with
    | Some chosen => if bool_of_str chosen then chosen else "stub-legendary-model"
    | None => "stub-legendary-model"
    end
  ∧ ∃ response,
      get_response uuid_source (get_model provider requested) sys input σ
      = Ok (response, S (S σ))
      ∧ ModelResponse.output_text response
        = canned (select (lower (default "" sys))).
Proof.
  split.
  - destruct requested as [chosen|]; [| done].
    cbn. by destruct (bool_of_str chosen).
  - unfold get_model.
    destruct (get_response_run uuid_source
                (__init__ (if bool_of_optstr requested
                           then default "" requested
                           else "stub-legendary-model")) sys input σ _
                (eq_trans (generate_response_select _ _ _)
                          (init_rule_response _ _))) as (response & Hr & Htext & _).
    eauto.
Qed.

End EngineExtras.

(** ** More on the path from a profile to a response *)

Module LinkageExtras.
Import Py PyFacts SkillDomains MasterTraining Stub Spec.
Import AssemblerFacts TrainingProperties StubProperties Linkage.
Import AssemblerExtras.

Lemma communication_resolved profile :
  CommunicationSkills ∈ get_skill_objects profile
  ↔ "communication" ∈ skill_domains profile.
Proof.
  rewrite get_skill_objects_elements, list_elem_of_omap. split.
  - intros (domain & Hin%elem_of_elements & Hdomain).
    by rewrite <- (SKILL_DOMAINS_inj domain "communication" _ Hdomain eq_refl).
  - intros Hin. exists "communication". by rewrite elem_of_elements.
Qed.

Lemma registered_free_of signatures (modules : list SkillDomain) :
  Forall (λ module, forallb (free_of signatures) (module_block module) = true)
    registered_modules →
  Forall (λ module, module ∈ registered_modules) modules →
  Forall (λ module, forallb (free_of signatures) (module_block module) = true)
    modules.
Proof.
  intros Hall Hmodules. rewrite Forall_forall in Hall.
  eapply Forall_impl; [exact Hmodules |]. intros module Hin. by apply Hall.
Qed.

(** The text assembled for a profile without custom instructions, and the
    response it selects. *)
Lemma instruction_text_response profile name input_text :
  custom_instructions profile = None →
  Forall (λ signature,
    contains signature (lower (instruction_text profile)) = false)
    (earlier_signatures
     ++ ["innovation genius"; "creative problem-solver"; "training"])
  ∧ contains "legendary" (lower (instruction_text profile)) = true
  ∧ contains "master communicator" (lower (instruction_text profile))
    = bool_decide ("communication" ∈ skill_domains profile)
  ∧ _generate_response (__init__ name) (Some (instruction_text profile)) input_text
    = Ok (if bool_decide ("communication" ∈ skill_domains profile)
          then communication_expert_response else default_response).
Proof.
  intros Hcustom.
  assert (Forall (λ signature,
            contains signature (lower (instruction_text profile)) = false)
            (earlier_signatures
             ++ ["innovation genius"; "creative problem-solver"; "training"]))
    as Hfree.
  { apply free_of_join; [reflexivity |].
    apply blocks_free_of; [done | vm_compute; reflexivity |].
    apply registered_free_of; [| apply get_skill_objects_registered].
    repeat constructor. }
  assert (contains "legendary" (lower (instruction_text profile)) = true)
    as Hlegendary.
  { apply contains_join_part with (part := default_base_instructions);
      [reflexivity | | vm_compute; reflexivity].
    unfold blocks, blocks_with. set_solver. }
  assert (contains "master communicator" (lower (instruction_text profile))
          = bool_decide ("communication" ∈ skill_domains profile)) as Hmaster.
  { case_bool_decide as Hcomm.
    - apply communication_resolved in Hcomm.
      apply contains_join_part with (part := get_instructions CommunicationSkills);
        [reflexivity | | vm_compute; reflexivity].
      unfold blocks, blocks_with.
      rewrite !elem_of_app. right. right. right. left.
      apply list_elem_of_In, in_concat.
      exists (module_block CommunicationSkills). split.
      + by apply in_map, list_elem_of_In.
      + right. by left.
    - assert (CommunicationSkills ∉ get_skill_objects profile) as Hnot
        by (by rewrite communication_resolved).
      destruct (unlinked_default profile (get_skill_objects profile) name
                  input_text Hcustom (get_skill_objects_registered profile) Hnot)
        as [Hall _].
      unfold all_signatures, earlier_signatures in Hall. cbn [app] in Hall.
      repeat (apply Forall_cons in Hall as [? Hall]). done. }
  split_and!; [exact Hfree | exact Hlegendary | exact Hmaster |].
  rewrite init_generate_response.
  unfold earlier_signatures in Hfree. cbn [app] in Hfree.
  repeat (apply Forall_cons in Hfree as [? Hfree]).
  unfold select, priority. cbn [List.find rule_matches].
  repeat match goal with
         | Hc : contains _ _ = _ |- _ => rewrite Hc; clear Hc
         end.
  rewrite andb_false_r. by case_bool_decide.
Qed.

(** Without custom instructions, the response selected for the assembled
    instructions of a profile depends on one thing only: it is the
    communication_expert response when the profile names the
    communication skill domain and the default response when it does
    not.  The legendary_sage, analytical_master and innovation_genius
    responses and the generic legendary response are never selected. *)
Theorem assembled_response_by_communication
    (profile : TrainingProfile) (σ : heap) (name input_text : string) :
  custom_instructions profile = None →
  ∃ text σ',
    assemble profile σ = Ok (text, σ')
    ∧ _generate_response (__init__ name) (Some text) input_text
      = Ok (if bool_decide ("communication" ∈ skill_domains profile)
            then communication_expert_response else default_response).
Proof.
  intros Hcustom. destruct σ as [L ags].
  eexists _, _. split; [apply assemble_run |].
  by apply instruction_text_response.
Qed.

Lemma assembled_response_by_communication_witness :
  ∃ text σ',
    assemble legendary_sage empty_store = Ok (text, σ')
    ∧ _generate_response (__init__ "stub-model") (Some text) "hello"
      = Ok (if bool_decide ("communication" ∈ skill_domains legendary_sage)
            then communication_expert_response else default_response).
Proof.
  apply (assembled_response_by_communication legendary_sage empty_store
           "stub-model" "hello").
  reflexivity.
Defined.
(** A substring without a line feed occurs in instructions extended by
    training exactly when it occurs in one of the two texts. *)
Lemma contains_combined (signature previous text : string) :
  one_line signature = true →
  contains signature (lower (previous +:+ "

" +:+ text))
  = contains signature (lower previous) || contains signature (lower text).
Proof.
  intros [Hne Hnl]%andb_true_iff.
  apply negb_true_iff in Hnl.
  assert (signature ≠ "") as Hne' by (intros ->; discriminate Hne).
  rewrite !lower_app.
  change (lower "

") with (String "010"%char (String "010"%char "")).
  change (String "010"%char (String "010"%char "") +:+ lower text)
    with (String "010"%char ("" +:+ String "010"%char (lower text))).
  rewrite !contains_app_sep by done.
  by rewrite contains_nil.
Qed.

Section Environment.
Variable reasoning_importable : bool.

(** Rule 5 looks at the whole of an agent's instructions.  Take an agent
    whose own instructions carry none of the signatures of rules 1 to 4,
    and apply a profile without custom instructions and without the
    communication skill domain: the response for the resulting
    instructions is the generic legendary response when the agent's own
    instructions mention "training" (in any letter case), and the default
    response otherwise. *)
Theorem trained_agent_response
    (agent : loc) (profile : TrainingProfile) (σ : heap) (ag : Agent.t)
    (previous name input_text : string) :
  agents σ !! agent = Some ag →
  Agent.instructions ag = Some previous →
  bool_of_str previous = true →
  Forall (λ signature, contains signature (lower previous) = false)
    profile_signatures →
  custom_instructions profile = None →
  "communication" ∉ skill_domains profile →
  ∃ σ' ag',
    apply_legendary_training reasoning_importable agent profile σ
    = Ok (agent, σ')
    ∧ agents σ' !! agent = Some ag'
    ∧ _generate_response (__init__ name) (Agent.instructions ag') input_text
      = Ok (if contains "training" (lower previous)
            then generic_legendary_response else default_response).
Proof.
  destruct σ as [L ags]. simpl.
  intros Hag Hprevious Htrue Hfree Hcustom Hcomm.
  pose (ts := {| base_instructions := default_base_instructions;
                 legendary_principles := 0 |}).
  eexists _, _.
  split; [by apply apply_legendary_training_run with (training_system := ts) |].
  split; [apply lookup_insert_eq |].
  unfold trained. cbn [Agent.instructions]. rewrite Hprevious, Htrue.
  destruct (instruction_text_response profile name input_text Hcustom)
    as (Htext & Hlegendary & Hmaster & _).
  rewrite bool_decide_eq_false_2 in Hmaster by done.
  rewrite init_generate_response.
  unfold earlier_signatures in Htext. cbn [app] in Htext.
  unfold profile_signatures in Hfree.
  repeat (apply Forall_cons in Htext as [? Htext]).
  repeat (apply Forall_cons in Hfree as [? Hfree]).
  unfold select, priority. cbn [List.find rule_matches].
  rewrite !contains_combined by reflexivity.
  repeat match goal with
         | Hc : contains _ _ = _ |- _ => rewrite Hc; clear Hc
         end.
  rewrite orb_true_r, orb_false_r. cbn [andb].
  by destruct (contains "training" (lower previous)).
Qed.

End Environment.

Lemma trained_agent_response_witness :
  ∃ σ' ag',
    apply_legendary_training true 3 analytical_master trainee_store
    = Ok (3, σ')
    ∧ agents σ' !! 3 = Some ag'
    ∧ _generate_response (__init__ "stub-model") (Agent.instructions ag') "hello"
      = Ok (if contains "training" (lower "You are an assistant in Training.")
            then generic_legendary_response else default_response).
Proof.
  apply (trained_agent_response true 3 analytical_master trainee_store
           trainee_agent "You are an assistant in Training." "stub-model"
           "hello").
  - reflexivity.
  - reflexivity.
  - reflexivity.
  - unfold profile_signatures. repeat constructor.
  - reflexivity.
  - apply (bool_decide_unpack _). vm_compute. exact I.
Defined.

End LinkageExtras.

(** ** The command line and the HTTP routes *)

Module CallerExtras.
Import Py PyFacts SkillDomains MasterTraining Stub Spec.
Import AssemblerFacts TrainingProperties StubProperties Linkage.
Import AssemblerExtras.

Lemma has_char_app (d : ascii) (a b : string) :
  has_char d (a +:+ b) = has_char d a || has_char d b.
Proof.
  induction a as [|x a IH]; [done |].
  change (has_char d (String x a +:+ b))
    with (Ascii.eqb x d || has_char d (a +:+ b)).
  rewrite IH. cbn [has_char]. by rewrite orb_assoc.
Qed.

(** Replacing a character leaves no occurrence of it, and brings in no
    character that neither the text nor the replacement had. *)
Lemma replace_char_free (d c : ascii) (new s : string) :
  has_char d new = false →
  d = c ∨ has_char d s = false →
  has_char d (replace (String c "") new s) = false.
Proof.
  intros Hnew Hd. unfold replace. cbn [String.eqb].
  induction s as [|x s IH]; [done |].
  cbn [replace_from startswith String.length Nat.sub].
  rewrite andb_true_r.
  assert (d = c ∨ has_char d s = false) as Hs.
  { destruct Hd as [-> | Hd]; [by left | right].
    cbn in Hd. by apply orb_false_iff in Hd as [_ ?]. }
  destruct (Ascii.eqb_spec c x) as [<- | Hne].
  - rewrite has_char_app, Hnew. by apply IH.
  - cbn [has_char]. rewrite (IH Hs), orb_false_r.
    apply Ascii.eqb_neq. destruct Hd as [-> | Hd]; [done |].
    cbn in Hd. apply orb_false_iff in Hd as [Hx _].
    by apply Ascii.eqb_neq in Hx.
Qed.

(** The key [_demo_profile] derives from a profile's display name has no
    space and no hyphen.  For a profile of the registry it is the name the
    profile is registered under, so the demonstration uses the challenge
    written for that profile; a profile whose key is not one of the six
    gets the fallback challenge. *)
Theorem demo_challenge_by_name (profile : TrainingProfile) :
  has_char " " (Cli.challenge_key profile) = false
  ∧ has_char "-" (Cli.challenge_key profile) = false
  ∧ (∀ profile_name,
       get_training_profile profile_name = Ok profile →
       Cli.challenge_key profile = profile_name
       ∧ dict_get profile_name Cli.challenges
         = Some (Cli.demo_challenge profile))
  ∧ (Cli.challenge_key profile ∉ canonical_names →
     Cli.demo_challenge profile = Cli.fallback_challenge).
Proof.
  unfold Cli.challenge_key. split_and!.
  - apply replace_char_free; [done | right].
    apply replace_char_free; [done | by left].
  - apply replace_char_free; [done | by left].
  - intros profile_name H%get_training_profile_Ok. unfold profiles in H.
    repeat (apply elem_of_cons in H as [[= -> ->] | H]);
      [.. | by apply elem_of_nil in H]; split; vm_compute; reflexivity.
  - intros Hkey. unfold Cli.demo_challenge, Cli.challenge_key.
    by rewrite dict_get_None.
Qed.

Lemma demo_challenge_by_name_witness :
  Cli.challenge_key legendary_sage = "legendary_sage"
  ∧ dict_get "legendary_sage" Cli.challenges
    = Some (Cli.demo_challenge legendary_sage).
Proof.
  apply (proj1 (proj2 (proj2 (demo_challenge_by_name legendary_sage)))
           "legendary_sage").
  reflexivity.
Defined.

(** The table of [list-profiles] agrees with the registry: it has one row
    for each profile of the registry, in the registry's order, with the
    name the profile is registered under, the description the profile
    itself carries and the value of its intensity; the row written for a
    failed lookup is never used. *)
Theorem list_training_profiles_agrees :
  Cli.list_training_profiles
  = map (λ '(profile_name, profile),
           (profile_name, description profile,
            TrainingIntensity_value (intensity profile))) profiles
  ∧ Forall (λ '(profile_name, _, _),
      ∃ profile, get_training_profile profile_name = Ok profile)
      Cli.list_training_profiles.
Proof.
  split; [reflexivity |].
  repeat constructor; eexists; reflexivity.
Qed.

Lemma profile_names_registered (profile_name : string) (profile : TrainingProfile) :
  get_training_profile profile_name = Ok profile →
  profile_name ∈ Api.profile_names.
Proof.
  intros H%get_training_profile_Ok. unfold profiles in H.
  repeat (apply elem_of_cons in H as [[= -> ->] | H]);
    [.. | by apply elem_of_nil in H]; unfold Api.profile_names; set_solver.
Qed.

(** The two profile routes agree.  [get_profile_info] answers a name that
    [get_training_profile] knows with the profile's information and any
    other name with status 404 and a message quoting the name; it lets no
    exception through.  [list_profiles] skips nothing: it lists, for the
    six names in order, exactly what [get_profile_info] returns. *)
Theorem profile_routes_agree (profile_name : string) :
  (∀ profile, get_training_profile profile_name = Ok profile →
     Api.get_profile_info profile_name = Api.Returned (Api.profile_info profile))
  ∧ (profile_name ∉ canonical_names →
     Api.get_profile_info profile_name
     = Api.HTTPException 404
         ("Training profile '" +:+ profile_name +:+ "' not found"))
  ∧ (∀ e, Api.get_profile_info profile_name ≠ Api.Unhandled e)
  ∧ (∀ info,
       Api.get_profile_info profile_name = Api.Returned info →
       info ∈ Api.list_profiles)
  ∧ Forall2 (λ known info, Api.get_profile_info known = Api.Returned info)
      canonical_names Api.list_profiles.
Proof.
  unfold Api.get_profile_info. split_and!.
  - by intros profile ->.
  - intros Hunknown. unfold get_training_profile.
    by rewrite dict_get_None.
  - intros e. unfold get_training_profile.
    by destruct (dict_get profile_name profiles).
  - intros info.
    destruct (get_training_profile profile_name) as [profile|e] eqn:Hget.
    + intros [= <-]. unfold Api.list_profiles. apply list_elem_of_omap.
      exists profile_name. split; [by eapply profile_names_registered |].
      by rewrite Hget.
    + by destruct e.
  - unfold canonical_names. repeat constructor.
Qed.

Lemma profile_routes_agree_witness :
  Api.get_profile_info "not_a_real_profile"
  = Api.HTTPException 404 "Training profile 'not_a_real_profile' not found".
Proof.
  apply (proj1 (proj2 (profile_routes_agree "not_a_real_profile"))).
  unfold canonical_names.
  repeat (apply not_elem_of_cons; split; [discriminate |]).
  apply not_elem_of_nil.
Defined.

End CallerExtras.
